(** * Scholar metrics updater: a shallow embedding of
      [scripts/fetch_scholar_metrics.py] and the properties of its pipeline.

    The script is sequential glue code: two HTTP fetchers, a static fallback,
    a merge step and two file writers.  Everything it reads from the outside
    (HTTP answers, the calendar date, whether a file can be opened and
    written) is gathered in an environment [env]; the functions below follow
    the source line by line over that environment.

    Modelling conventions.
    - Python values decoded from JSON are the inductive [pyval]; JSON floats
      are left out (every counter the script reads is an integer), so
      nothing below speaks about a fractional count.
    - A Python [dict] is an association list in insertion order, one
      binding per key; a lookup returns the first binding of the key.
    - A run reads the calendar once: [today] is the date every
      [datetime.now()] of the run formats.
    - The body of a [try] block runs in the monad [M]: it threads the log of
      HTTP requests issued so far and may raise a Python exception.  The
      [except Exception] handler turns a raised exception into [None].
    - [print] calls are not modelled; console output is assumed to succeed. *)

From Stdlib Require Import ZArith List String Ascii Bool Lia Permutation.
Import ListNotations.
Local Open Scope string_scope.
Local Open Scope Z_scope.

Local Set Warnings "-register-all".

(** ** Python values *)

Inductive pyval : Type :=
| PyNone
| PyBool (b : bool)
| PyInt (n : Z)
| PyStr (s : string)
| PyList (l : list pyval)
| PyDict (d : list (string * pyval)).

Definition dict := list (string * pyval).

(** Exceptions the script can meet; all of them are [Exception]s. *)
Inductive exn : Type :=
| ConnectionError      (* requests.get could not complete *)
| HTTPError            (* raise_for_status *)
| JSONDecodeError      (* response.json() on a malformed body *)
| AttributeError
| TypeError
| KeyError
| OSError.             (* open / write *)

Inductive exc (A : Type) : Type :=
| Ok (a : A)
| Raise (e : exn).
Arguments Ok {A} a.
Arguments Raise {A} e.

Module Dict.

Fixpoint lookup (k : string) (d : dict) : option pyval :=
  match d with
  | [] => None
  | (k', v) :: d' => if String.eqb k k' then Some v else lookup k d'
  end.

Definition mem (k : string) (d : dict) : bool :=
  match lookup k d with Some _ => true | None => false end.

Definition keys (d : dict) : list string := map fst d.

(** [d[k] = v]: an existing key keeps its position, a new one goes last. *)
Fixpoint set (k : string) (v : pyval) (d : dict) : dict :=
  match d with
  | [] => [(k, v)]
  | (k', v') :: d' =>
      if String.eqb k k' then (k', v) :: d' else (k', v') :: set k v d'
  end.

(** [d.update(other)] *)
Definition update (d other : dict) : dict :=
  fold_left (fun acc kv => set (fst kv) (snd kv) acc) other d.

Definition is_empty (d : dict) : bool :=
  match d with [] => true | _ => false end.

End Dict.

(** ** Built-in operations, as far as the script uses them *)

(** [bool(v)] *)
Definition truthy (v : pyval) : bool :=
  match v with
  | PyNone => false
  | PyBool b => b
  | PyInt n => negb (n =? 0)
  | PyStr s => negb (String.eqb s "")
  | PyList l => match l with [] => false | _ => true end
  | PyDict d => negb (Dict.is_empty d)
  end.

(** [v.get(key, default)]: only a dict has the method. *)
Definition py_get (v : pyval) (key : string) (default : pyval) : exc pyval :=
  match v with
  | PyDict d =>
      Ok (match Dict.lookup key d with Some x => x | None => default end)
  | _ => Raise AttributeError
  end.

(** [v[key]] with a string key. *)
Definition py_getitem (v : pyval) (key : string) : exc pyval :=
  match v with
  | PyDict d =>
      match Dict.lookup key d with Some x => Ok x | None => Raise KeyError end
  | _ => Raise TypeError
  end.

(** [iter(v)]: the elements a [for] loop visits. *)
Definition py_iter (v : pyval) : exc (list pyval) :=
  match v with
  | PyList l => Ok l
  | PyDict d => Ok (map PyStr (Dict.keys d))
  | PyStr s =>
      Ok (map (fun c => PyStr (String c EmptyString)) (list_ascii_of_string s))
  | _ => Raise TypeError
  end.

(** [len(v)] *)
Definition py_len (v : pyval) : exc Z :=
  match v with
  | PyList l => Ok (Z.of_nat (List.length l))
  | PyDict d => Ok (Z.of_nat (List.length d))
  | PyStr s => Ok (Z.of_nat (String.length s))
  | _ => Raise TypeError
  end.

(** The integer a value stands for in arithmetic; [bool] is a subclass of
    [int]. *)
Definition as_int (v : pyval) : option Z :=
  match v with
  | PyInt n => Some n
  | PyBool b => Some (if b then 1 else 0)
  | _ => None
  end.

(** [v >= n] for an integer literal [n]. *)
Definition py_ge (v : pyval) (n : Z) : exc bool :=
  match as_int v with
  | Some x => Ok (n <=? x)
  | None => Raise TypeError
  end.

(** [total + v] where [total] is an [int]. *)
Definition py_add (total : Z) (v : pyval) : exc Z :=
  match as_int v with
  | Some x => Ok (total + x)
  | None => Raise TypeError
  end.

(** Substring test on strings. *)
Fixpoint str_contains (needle hay : string) : bool :=
  String.prefix needle hay
  || match hay with
     | EmptyString => false
     | String _ hay' => str_contains needle hay'
     end.

Definition is_str (needle : string) (v : pyval) : bool :=
  match v with PyStr s => String.eqb needle s | _ => false end.

(** [needle in v] for a string [needle]. *)
Definition py_in (needle : string) (v : pyval) : exc bool :=
  match v with
  | PyStr s => Ok (str_contains needle s)
  | PyList l => Ok (existsb (is_str needle) l)
  | PyDict d => Ok (Dict.mem needle d)
  | _ => Raise TypeError
  end.

(** ** The outside world *)

(** Where a GET goes.  The author-detail URL embeds the author id found by
    the search (the f-string of line 44). *)
Inductive url : Type :=
| AuthorSearchUrl                 (* .../graph/v1/author/search *)
| AuthorUrl (author_id : pyval)   (* .../graph/v1/author/{author_id} *)
| CrossrefWorksUrl.               (* https://api.crossref.org/works *)

(** A call [requests.get(url, params=...)]; [None] when the call passes no
    [params] argument. *)
Record request : Type := Get { req_url : url; req_params : option dict }.

(** An HTTP answer: the status code and the decoded body, [None] when
    [response.json()] cannot decode it. *)
Record response : Type := Response { status_code : Z; body : option pyval }.

Inductive http_outcome : Type :=
| NoAnswer                 (* requests.get raises *)
| Answer (r : response).

Inductive io_outcome : Type :=
| OpenFails      (* open(filepath, 'w') raises; the file is left as it was *)
| WriteFails     (* the file was opened, hence truncated, then writing raised *)
| Written.

Record env : Type := Env {
  http : request -> http_outcome;
  today : string;                     (* datetime.now().strftime("%Y-%m-%d") *)
  io : string -> io_outcome           (* how the write of each output file
                                         ends in this run, whatever the
                                         cause *)
}.

(** ** The monad of a [try] body: request log and exceptions *)

Definition M (A : Type) : Type := list request -> exc A * list request.

Definition ret {A} (a : A) : M A := fun log => (Ok a, log).

Definition bind {A B} (m : M A) (k : A -> M B) : M B :=
  fun log =>
    match m log with
    | (Ok a, log') => k a log'
    | (Raise e, log') => (Raise e, log')
    end.

Definition lift {A} (r : exc A) : M A := fun log => (r, log).

Definition exc_bind {A B} (r : exc A) (k : A -> exc B) : exc B :=
  match r with
  | Ok a => k a
  | Raise e => Raise e
  end.

Notation "x <- m ;; k" := (bind m (fun x => k))
  (at level 100, m at next level, right associativity).
Notation "'let?' x := r 'in' k" := (exc_bind r (fun x => k))
  (at level 100, x name, r at next level, right associativity).

(** [except Exception as e: ...; return None] around a body. *)
Definition try_except {A} (body : M (option A))
  : list request -> option A * list request :=
  fun log =>
    match body log with
    | (Ok r, log') => (r, log')
    | (Raise _, log') => (None, log')
    end.

(** [requests.get]: the request is issued, then answered or not. *)
Definition requests_get (E : env) (u : url) (params : option dict)
  : M response :=
  fun log =>
    let rq := Get u params in
    match http E rq with
    | NoAnswer => (Raise ConnectionError, (log ++ [rq])%list)
    | Answer r => (Ok r, (log ++ [rq])%list)
    end.

(** [response.raise_for_status()]: raises on 4xx and 5xx. *)
Definition raise_for_status (r : response) : exc unit :=
  if (400 <=? status_code r) && (status_code r <? 600)
  then Raise HTTPError else Ok tt.

(** [response.json()] *)
Definition json (r : response) : exc pyval :=
  match body r with
  | Some v => Ok v
  | None => Raise JSONDecodeError
  end.

(** ** Configuration (lines 15-16) *)

Definition GOOGLE_SCHOLAR_ID : string := "H8fc2JgAAAAJ".
Definition AUTHOR_NAME : string := "Evangelos-Marios Nikolados".

(** ** Primary fetcher: [fetch_semantic_scholar_metrics] (lines 18-81) *)

(** Line 35: ["Nikolados" in author.get("name", "")]. *)
Definition name_matches (author : pyval) : exc bool :=
  let? name := py_get author "name" (PyStr "") in
  py_in "Nikolados" name.

(** Lines 33-37: the loop over the candidates, with its [break]; the result
    is the final value of [author_id]. *)
Fixpoint scan_authors (authors : list pyval) : exc pyval :=
  match authors with
  | [] => Ok PyNone
  | author :: rest =>
      let? hit := name_matches author in
      if hit then py_getitem author "authorId" else scan_authors rest
  end.

Definition find_author_id (authors : pyval) : exc pyval :=
  let? candidates := py_iter authors in
  scan_authors candidates.

(** Lines 55-59: the i10 loop. *)
Fixpoint count_i10 (papers : list pyval) (i10_count : Z) : exc Z :=
  match papers with
  | [] => Ok i10_count
  | paper :: rest =>
      let? c := py_get paper "citationCount" (PyInt 0) in
      let? hit := py_ge c 10 in
      count_i10 rest (if hit then i10_count + 1 else i10_count)
  end.

Definition compute_i10 (data : pyval) : exc Z :=
  let? papers := py_get data "papers" (PyList []) in
  let? entries := py_iter papers in
  count_i10 entries 0.

(** Lines 54-70: the record built from the author-detail body. *)
Definition build_metrics (data : pyval) (date : string) : exc dict :=
  let? i10_count := compute_i10 data in
  let? h := py_get data "hIndex" (PyInt 0) in
  let? cites := py_get data "citationCount" (PyInt 0) in
  let? pubs := py_get data "publicationCount" (PyInt 0) in
  let? name := py_get data "name" (PyStr AUTHOR_NAME) in
  Ok [ ("h_index", h);
       ("i10_index", PyInt i10_count);
       ("total_citations", cites);
       ("publications_count", pubs);
       ("last_updated", PyStr date);
       ("scholar_id", PyStr GOOGLE_SCHOLAR_ID);
       ("source", PyStr "Semantic Scholar");
       ("author_name", name) ].

Definition search_params : dict :=
  [ ("query", PyStr AUTHOR_NAME); ("limit", PyInt 5) ].

Definition detail_params : dict :=
  [ ("fields",
     PyStr "name,hIndex,citationCount,publicationCount,papers.title,papers.citationCount,papers.year,papers.venue,papers.authors") ].

(** Lines 23-77: the body of the [try]. *)
Definition semantic_scholar_body (E : env) : M (option dict) :=
  response <- requests_get E AuthorSearchUrl (Some search_params) ;;
  _ <- lift (raise_for_status response) ;;
  found <- lift (json response) ;;
  authors <- lift (py_get found "data" (PyList [])) ;;
  author_id <- lift (find_author_id authors) ;;
  if negb (truthy author_id) then ret None
  else
    response <- requests_get E (AuthorUrl author_id) (Some detail_params) ;;
    _ <- lift (raise_for_status response) ;;
    data <- lift (json response) ;;
    metrics <- lift (build_metrics data (today E)) ;;
    ret (Some metrics).

Definition fetch_semantic_scholar_metrics (E : env)
  : list request -> option dict * list request :=
  try_except (semantic_scholar_body E).

(** ** Secondary fetcher: [fetch_crossref_metrics] (lines 83-117) *)

(** Lines 90-93: the parameters the function prepares. *)
Definition crossref_params : dict :=
  [ ("query.author", PyStr AUTHOR_NAME); ("rows", PyInt 100) ].

(** Lines 105-106: the citation sum. *)
Fixpoint sum_citations (items : list pyval) (total_citations : Z) : exc Z :=
  match items with
  | [] => Ok total_citations
  | item :: rest =>
      let? c := py_get item "is-referenced-by-count" (PyInt 0) in
      let? total := py_add total_citations c in
      sum_citations rest total
  end.

(** Lines 98-113. *)
Definition crossref_summary (data : pyval) : exc dict :=
  let? message := py_get data "message" (PyDict []) in
  let? items := py_get message "items" (PyList []) in
  let? publication_count := py_len items in
  let? entries := py_iter items in
  let? total_citations := sum_citations entries 0 in
  Ok [ ("total_citations_crossref", PyInt total_citations);
       ("publications_crossref", PyInt publication_count) ].

(** Lines 88-113: the body of the [try].  Line 95 calls [requests.get(url)]:
    the prepared [params] are not handed to the call. *)
Definition crossref_body (E : env) : M (option dict) :=
  response <- requests_get E CrossrefWorksUrl None ;;
  _ <- lift (raise_for_status response) ;;
  data <- lift (json response) ;;
  summary <- lift (crossref_summary data) ;;
  ret (Some summary).

Definition fetch_crossref_metrics (E : env)
  : list request -> option dict * list request :=
  try_except (crossref_body E).

(** ** Fallback provider: [get_fallback_metrics] (lines 119-133) *)

Definition get_fallback_metrics (date : string) : dict :=
  [ ("h_index", PyInt 6);
    ("i10_index", PyInt 3);
    ("total_citations", PyInt 124);
    ("publications_count", PyInt 10);
    ("last_updated", PyStr date);
    ("scholar_id", PyStr GOOGLE_SCHOLAR_ID);
    ("source", PyStr "Manual (fallback)");
    ("author_name", PyStr AUTHOR_NAME) ].

(** ** Persistence writer (lines 135-231) *)

(** The values the f-string of lines 163-223 interpolates, in order of
    appearance; the rest of the snippet is fixed text. *)
Record js_fields : Type := JsFields {
  js_header_updated : pyval;     (* // Last updated: ... *)
  js_header_source : pyval;      (* // Source: ... *)
  js_hIndex : pyval;
  js_i10Index : pyval;
  js_totalCitations : pyval;
  js_publicationsCount : pyval;
  js_lastUpdated : pyval;
  js_scholarId : pyval;
  js_source : pyval;
  js_authorName : pyval
}.

(** What a writer puts into a file: the text [json.dump] produces for a
    record at a given indent, or the snippet template with its fields. *)
Inductive content : Type :=
| JsonText (indent : Z) (value : dict)
| JsSnippet (fields : js_fields).

Inductive file : Type :=
| Complete (c : content)
| Truncated.                 (* opened with 'w', not written to the end *)

(** The output directory, and the trace of [open(filepath, 'w')] calls with
    the record the calling writer was given. *)
Record disk : Type := Disk {
  files : string -> option file;
  attempts : list (string * dict)
}.

Definition put (name : string) (f : file) (fs : string -> option file)
  : string -> option file :=
  fun n => if String.eqb n name then Some f else fs n.

(** [with open(filepath, 'w') as f: <write c>] *)
Definition open_and_write (E : env) (metrics : dict) (filename : string)
    (c : content) (d : disk) : exc unit * disk :=
  let tr := (attempts d ++ [(filename, metrics)])%list in
  match io E filename with
  | OpenFails => (Raise OSError, Disk (files d) tr)
  | WriteFails => (Raise OSError, Disk (put filename Truncated (files d)) tr)
  | Written => (Ok tt, Disk (put filename (Complete c) (files d)) tr)
  end.

Definition save_metrics_to_json (E : env) (metrics : dict) (filename : string)
    (d : disk) : bool * disk :=
  match open_and_write E metrics filename (JsonText 2 metrics) d with
  | (Ok _, d') => (true, d')
  | (Raise _, d') => (false, d')
  end.

(** Lines 163-176: the interpolated values; [metrics['k']] raises [KeyError]
    on a missing key, [metrics.get('k', default)] does not. *)
Definition js_content (metrics : dict) : exc js_fields :=
  let m := PyDict metrics in
  let? hdr_updated := py_getitem m "last_updated" in
  let? hdr_source := py_get m "source" (PyStr "Unknown") in
  let? h := py_get m "h_index" (PyInt 0) in
  let? i10 := py_get m "i10_index" (PyInt 0) in
  let? cites := py_get m "total_citations" (PyInt 0) in
  let? pubs := py_get m "publications_count" (PyInt 0) in
  let? updated := py_getitem m "last_updated" in
  let? sid := py_getitem m "scholar_id" in
  let? source := py_get m "source" (PyStr "Unknown") in
  let? name := py_get m "author_name" (PyStr AUTHOR_NAME) in
  Ok (JsFields hdr_updated hdr_source h i10 cites pubs updated sid source name).

Definition create_javascript_file (E : env) (metrics : dict)
    (filename : string) (d : disk) : bool * disk :=
  match js_content metrics with
  | Raise _ => (false, d)
  | Ok fields =>
      match open_and_write E metrics filename (JsSnippet fields) d with
      | (Ok _, d') => (true, d')
      | (Raise _, d') => (false, d')
      end
  end.

(** ** Orchestrator: [main] (lines 233-279) *)

(** Truth value of a variable holding [None] or a dict. *)
Definition opt_truthy (o : option dict) : bool :=
  match o with
  | Some d => truthy (PyDict d)
  | None => false
  end.

(** Lines 253-255. *)
Definition merge (metrics crossref_data : option dict) : option dict :=
  match crossref_data, metrics with
  | Some c, Some m =>
      if opt_truthy crossref_data && opt_truthy metrics
      then Some (Dict.update m c) else metrics
  | _, _ => metrics
  end.

(** Lines 258-260. *)
Definition or_fallback (metrics : option dict) (date : string) : dict :=
  match metrics with
  | Some m => if negb (opt_truthy metrics) then get_fallback_metrics date else m
  | None => get_fallback_metrics date
  end.

Definition json_file : string := "scholar_metrics.json".
Definition js_file : string := "scholar_metrics.js".

(** What a run leaves behind. *)
Record run : Type := Run {
  persisted : dict;              (* the record handed to the writers *)
  issued : list request;         (* HTTP requests, in order *)
  after : disk;
  exit_code : Z
}.

Definition main (E : env) (before : disk) : run :=
  let (metrics, log1) := fetch_semantic_scholar_metrics E [] in
  let (crossref_data, log2) := fetch_crossref_metrics E log1 in
  let metrics := merge metrics crossref_data in
  let metrics := or_fallback metrics (today E) in
  let (json_success, d1) := save_metrics_to_json E metrics json_file before in
  let (js_success, d2) := create_javascript_file E metrics js_file d1 in
  Run metrics log2 d2 (if json_success && js_success then 0 else 1).

(** The five primary fields and the two supplementary ones. *)
Definition primary_fields : list string :=
  [ "h_index"; "i10_index"; "total_citations"; "publications_count";
    "last_updated" ].

Definition supplementary_fields : list string :=
  [ "total_citations_crossref"; "publications_crossref" ].

Definition record_fields : list string :=
  [ "h_index"; "i10_index"; "total_citations"; "publications_count";
    "last_updated"; "scholar_id"; "source"; "author_name" ].

(** ** Sample environments *)

Definition empty_disk : disk := Disk (fun _ => None) [].

Definition ok_json (v : pyval) : http_outcome := Answer (Response 200 (Some v)).

Definition sample_search : pyval :=
  PyDict [ ("total", PyInt 2);
           ("data", PyList [ PyDict [ ("authorId", PyStr "111");
                                      ("name", PyStr "E. Nikolaou") ];
                             PyDict [ ("authorId", PyStr "1752417");
                                      ("name", PyStr "E. Nikolados") ];
                             PyDict [ ("authorId", PyStr "999");
                                      ("name", PyStr "A. Nikolados") ] ]) ].

(** The author-detail body of the specification's example. *)
Definition sample_detail : pyval :=
  PyDict [ ("hIndex", PyInt 6); ("citationCount", PyInt 124);
           ("publicationCount", PyInt 10);
           ("papers", PyList [ PyDict [ ("citationCount", PyInt 12) ];
                               PyDict [ ("citationCount", PyInt 3) ] ]) ].

Definition sample_works : pyval :=
  PyDict [ ("message",
            PyDict [ ("items",
                      PyList [ PyDict [ ("is-referenced-by-count", PyInt 7) ];
                               PyDict [ ("title", PyStr "untitled") ];
                               PyDict [ ("is-referenced-by-count", PyInt 5) ] ]) ]) ].

(** The record the primary fetcher builds from [sample_detail]. *)
Definition sample_record : dict :=
  [ ("h_index", PyInt 6);
    ("i10_index", PyInt 1);
    ("total_citations", PyInt 124);
    ("publications_count", PyInt 10);
    ("last_updated", PyStr "2025-01-15");
    ("scholar_id", PyStr "H8fc2JgAAAAJ");
    ("source", PyStr "Semantic Scholar");
    ("author_name", PyStr "Evangelos-Marios Nikolados") ].

Definition is_author_url (u : url) : bool :=
  match u with AuthorUrl (PyStr "1752417") => true | _ => false end.

(** Both services answer. *)
Definition sample_http (rq : request) : http_outcome :=
  match req_url rq with
  | AuthorSearchUrl => ok_json sample_search
  | AuthorUrl _ => if is_author_url (req_url rq) then ok_json sample_detail
                   else Answer (Response 404 None)
  | CrossrefWorksUrl => ok_json sample_works
  end.

Definition sample_env : env := Env sample_http "2025-01-15" (fun _ => Written).

(** The scholarly-graph service is unreachable, the bibliographic one
    answers. *)
Definition offline_http (rq : request) : http_outcome :=
  match req_url rq with
  | CrossrefWorksUrl => ok_json sample_works
  | _ => NoAnswer
  end.

Definition offline_env : env := Env offline_http "2025-01-15" (fun _ => Written).




(** The author-detail body is the empty object. *)
Definition bare_http (rq : request) : http_outcome :=
  match req_url rq with
  | AuthorSearchUrl => ok_json sample_search
  | AuthorUrl _ => ok_json (PyDict [])
  | CrossrefWorksUrl => Answer (Response 503 None)
  end.

Definition bare_env : env := Env bare_http "2025-01-15" (fun _ => Written).

(** A body with a single paper of the given citation count. *)
Definition one_paper (v : pyval) : pyval :=
  PyDict [ ("papers", PyList [ PyDict [ ("citationCount", v) ] ]) ].

(** A later run of [sample_env]: another date, other files on disk, and the
    snippet file cannot be opened. *)
Definition later_env : env :=
  Env sample_http "2025-02-01"
      (fun name => if String.eqb name js_file then OpenFails else Written).

Definition used_disk : disk :=
  Disk (fun name => if String.eqb name json_file then Some Truncated else None)
       [].

(** The bibliographic service lists one work for the author query and
    three unrelated works when asked without parameters. *)
Definition author_works : pyval :=
  PyDict [ ("message",
            PyDict [ ("items",
                      PyList [ PyDict [ ("is-referenced-by-count",
                                         PyInt 40) ] ]) ]) ].

Definition unfiltered_http (rq : request) : http_outcome :=
  match req_url rq, req_params rq with
  | CrossrefWorksUrl, Some _ => ok_json author_works
  | CrossrefWorksUrl, None => ok_json sample_works
  | _, _ => NoAnswer
  end.

Definition unfiltered_env : env :=
  Env unfiltered_http "2025-01-15" (fun _ => Written).

(** ** Derived views of the fetchers

    The fetchers' results do not depend on the request log they are handed;
    the definitions below name the result of each stage. *)

Definition search_request : request := Get AuthorSearchUrl (Some search_params).

Definition detail_request (author_id : pyval) : request :=
  Get (AuthorUrl author_id) (Some detail_params).

(** The decoded body of an answer that passes [raise_for_status]. *)
Definition answer_json (E : env) (rq : request) : exc pyval :=
  match http E rq with
  | NoAnswer => Raise ConnectionError
  | Answer r => let? _ := raise_for_status r in json r
  end.

(** The candidate list of the search answer. *)
Definition candidates (E : env) : exc (list pyval) :=
  let? found := answer_json E search_request in
  let? authors := py_get found "data" (PyList []) in
  py_iter authors.

(** The value of [author_id] after the loop. *)
Definition selected_author (E : env) : exc pyval :=
  let? cs := candidates E in
  scan_authors cs.

Definition primary_outcome (E : env) : exc (option dict) :=
  let? author_id := selected_author E in
  if negb (truthy author_id) then Ok None
  else
    let? data := answer_json E (detail_request author_id) in
    let? metrics := build_metrics data (today E) in
    Ok (Some metrics).

Definition secondary_outcome (E : env) : exc (option dict) :=
  let? data := answer_json E (Get CrossrefWorksUrl None) in
  let? summary := crossref_summary data in
  Ok (Some summary).

Definition caught {A} (r : exc (option A)) : option A :=
  match r with
  | Ok o => o
  | Raise _ => None
  end.

(** What each fetcher returns in a run. *)
Definition primary (E : env) : option dict :=
  fst (fetch_semantic_scholar_metrics E []).

Definition secondary (E : env) : option dict :=
  fst (fetch_crossref_metrics E []).

(** A request that yields no usable answer: it errors, comes back with a
    4xx/5xx status, or carries a body that is not JSON. *)
Definition request_fails (E : env) (rq : request) : Prop :=
  http E rq = NoAnswer \/
  exists r, http E rq = Answer r /\
            (raise_for_status r = Raise HTTPError \/ body r = None).

(** The ways the primary fetcher fails: a request that yields no usable
    answer; a search body that decodes but holds no candidate list that can
    be iterated; a candidate the scan raises on; no candidate of that
    surname, or one with a falsy id; a detail body that decodes but from
    which the record cannot be built. *)
Inductive primary_failure (E : env) : Prop :=
| search_fails :
    request_fails E search_request -> primary_failure E
| search_malformed found e :
    answer_json E search_request = Ok found ->
    (let? authors := py_get found "data" (PyList []) in py_iter authors)
      = Raise e ->
    primary_failure E
| candidate_malformed cs e :
    candidates E = Ok cs ->
    scan_authors cs = Raise e ->
    primary_failure E
| search_miss cs :
    candidates E = Ok cs ->
    Forall (fun c => name_matches c = Ok false) cs ->
    primary_failure E
| falsy_author_id author_id :
    selected_author E = Ok author_id ->
    truthy author_id = false ->
    primary_failure E
| detail_fails author_id :
    selected_author E = Ok author_id ->
    truthy author_id = true ->
    request_fails E (detail_request author_id) ->
    primary_failure E
| detail_malformed author_id data e :
    selected_author E = Ok author_id ->
    truthy author_id = true ->
    answer_json E (detail_request author_id) = Ok data ->
    build_metrics data (today E) = Raise e ->
    primary_failure E.

(** A non-success status as the specification words it: any status outside
    200-299. *)
Definition non_success (r : response) : bool :=
  negb ((200 <=? status_code r) && (status_code r <? 300)).

(** The requests the primary fetcher issues. *)
Definition primary_requests (E : env) : list request :=
  search_request ::
  match selected_author E with
  | Ok author_id => if truthy author_id then [detail_request author_id] else []
  | Raise _ => []
  end.

Definition is_written (o : io_outcome) : bool :=
  match o with Written => true | _ => false end.

(** A file after one writer ran on it. *)
Definition write_effect (E : env) (name : string) (c : content)
    (fs : string -> option file) : string -> option file :=
  match io E name with
  | OpenFails => fs
  | WriteFails => put name Truncated fs
  | Written => put name (Complete c) fs
  end.

(** ** The i10-index and the supplementary counts, as the specification
    words them *)

(** A paper's citation count, a missing one read as 0. *)
Definition citation_count (paper : pyval) : Z :=
  match paper with
  | PyDict d =>
      match Dict.lookup "citationCount" d with
      | Some v => match as_int v with Some n => n | None => 0 end
      | None => 0
      end
  | _ => 0
  end.

Definition i10_index_spec (papers : list pyval) : Z :=
  Z.of_nat (List.length (filter (fun p => 10 <=? citation_count p) papers)).

(** An item's referenced-by counter, a missing one read as 0. *)
Definition referenced_by (item : pyval) : Z :=
  match item with
  | PyDict d =>
      match Dict.lookup "is-referenced-by-count" d with
      | Some v => match as_int v with Some n => n | None => 0 end
      | None => 0
      end
  | _ => 0
  end.

Definition citation_sum_spec (items : list pyval) : Z :=
  fold_right (fun item acc => referenced_by item + acc) 0 items.

Definition bound (k : string) (d : dict) : Prop :=
  exists v, Dict.lookup k d = Some v.

(** [d] with the last-updated date replaced. *)
Definition stamp (date : string) (d : dict) : dict :=
  Dict.set "last_updated" (PyStr date) d.

(** ** Entries the two loops accept, and further sample answers *)

(** A paper the loop of lines 57-59 gets through: an object whose citation
    count is missing or is an integer. *)
Definition countable (paper : pyval) : bool :=
  match paper with
  | PyDict d =>
      match Dict.lookup "citationCount" d with
      | Some v => match as_int v with Some _ => true | None => false end
      | None => true
      end
  | _ => false
  end.

(** An item the loop of lines 105-106 gets through. *)
Definition summable (item : pyval) : bool :=
  match item with
  | PyDict d =>
      match Dict.lookup "is-referenced-by-count" d with
      | Some v => match as_int v with Some _ => true | None => false end
      | None => true
      end
  | _ => false
  end.

(** An environment from the three answers, with every write succeeding. *)
Definition answers (search detail works : http_outcome) : env :=
  Env (fun rq => match req_url rq with
                 | AuthorSearchUrl => search
                 | AuthorUrl _ => detail
                 | CrossrefWorksUrl => works
                 end)
      "2025-01-15" (fun _ => Written).

Definition candidate (author_id name : pyval) : pyval :=
  PyDict [ ("authorId", author_id); ("name", name) ].

Definition search_of (cs : list pyval) : http_outcome :=
  ok_json (PyDict [ ("data", PyList cs) ]).


(** The first candidate of that surname has no id at all. *)
Definition keyless_env : env :=
  answers (search_of [ PyDict [ ("name", PyStr "E. Nikolados") ];
                       candidate (PyStr "1752417") (PyStr "E.-M. Nikolados") ])
          (ok_json sample_detail) (ok_json sample_works).

(** One paper of the detail answer has a null citation count. *)
Definition null_count_env : env :=
  answers (ok_json sample_search)
          (ok_json (PyDict [ ("hIndex", PyInt 6);
                             ("papers",
                              PyList [ PyDict [ ("citationCount", PyInt 12) ];
                                       PyDict [ ("citationCount", PyNone) ] ]) ]))
          (ok_json sample_works).

(** All three answers are the sample ones. *)
Definition busy_works_env : env :=
  answers (ok_json sample_search) (ok_json sample_detail)
          (ok_json sample_works).

(** The search answer has no candidate list. *)
Definition no_data_env : env :=
  answers (ok_json (PyDict [ ("total", PyInt 0) ])) (ok_json sample_detail)
          (ok_json sample_works).

(** Both scholarly-graph answers come with status 300 and a well-formed
    body. *)
Definition redirect_env : env :=
  answers (Answer (Response 300 (Some sample_search)))
          (Answer (Response 300 (Some sample_detail)))
          (ok_json sample_works).

(** The search answer is a JSON list instead of an object. *)
Definition list_body_env : env :=
  answers (ok_json (PyList [])) (ok_json sample_detail) (ok_json sample_works).

(** The detail answer carries a null h-index. *)
Definition null_aggregate : pyval :=
  PyDict [ ("hIndex", PyNone); ("citationCount", PyInt 124);
           ("publicationCount", PyInt 10);
           ("papers", PyList [ PyDict [ ("citationCount", PyInt 12) ] ]) ].

Definition null_aggregate_env : env :=
  answers (ok_json sample_search) (ok_json null_aggregate)
          (ok_json sample_works).

(** The record key each aggregate of the detail body is stored under. *)
Definition aggregate_keys : list (string * string) :=
  [ ("h_index", "hIndex"); ("total_citations", "citationCount");
    ("publications_count", "publicationCount") ].

(** A counter value the comparison of line 58 and the addition of line 106
    raise on: null, a string, a list or an object. *)
Definition rejected_counter (v : pyval) : bool :=
  match v with
  | PyNone | PyStr _ | PyList _ | PyDict _ => true
  | PyBool _ | PyInt _ => false
  end.

(** An entry the loop of lines 57-59 raises on: not an object, or an object
    with such a citation count. *)
Definition uncountable (paper : pyval) : bool :=
  match paper with
  | PyDict d =>
      match Dict.lookup "citationCount" d with
      | Some v => rejected_counter v
      | None => false
      end
  | _ => true
  end.

(** An item the loop of lines 105-106 raises on. *)
Definition unsummable (item : pyval) : bool :=
  match item with
  | PyDict d =>
      match Dict.lookup "is-referenced-by-count" d with
      | Some v => rejected_counter v
      | None => false
      end
  | _ => true
  end.

(** The bibliographic service answers with an empty object. *)
Definition empty_works_env : env :=
  answers (ok_json sample_search) (ok_json sample_detail) (ok_json (PyDict [])).

(** * Properties *)

(** ** The model on concrete inputs *)

Example surname_in_full_name :
  str_contains "Nikolados" AUTHOR_NAME = true /\
  str_contains "Nikolados" "E. Nikolaou" = false /\
  str_contains "Nikolados" "" = false.
Proof. repeat split; reflexivity. Qed.

Example name_matches_samples :
  name_matches (PyDict [ ("name", PyStr "E. Nikolados") ]) = Ok true /\
  name_matches (PyDict [ ("authorId", PyStr "222") ]) = Ok false /\
  name_matches (PyDict [ ("name", PyNone) ]) = Raise TypeError /\
  name_matches (PyStr "E. Nikolados") = Raise AttributeError.
Proof. repeat split; reflexivity. Qed.

Example sample_run :
  let r := main sample_env empty_disk in
  persisted r =
    (sample_record ++ [ ("total_citations_crossref", PyInt 12);
                        ("publications_crossref", PyInt 3) ])%list /\
  issued r = [ search_request; detail_request (PyStr "1752417");
               Get CrossrefWorksUrl None ] /\
  exit_code r = 0.
Proof. repeat split; reflexivity. Qed.

Example offline_run :
  let r := main offline_env empty_disk in
  persisted r = get_fallback_metrics "2025-01-15" /\
  issued r = [ search_request; Get CrossrefWorksUrl None ] /\
  exit_code r = 0.
Proof. repeat split; reflexivity. Qed.

Example later_run :
  let r := main later_env used_disk in
  exit_code r = 1 /\
  files (after r) js_file = None /\
  map fst (attempts (after r)) = [ json_file; js_file ].
Proof. repeat split; reflexivity. Qed.

(** A null citation count in one paper makes the comparison of line 58
    raise, and the run falls back. *)
Example null_citation_count :
  compute_i10 (one_paper PyNone) = Raise TypeError.
Proof. reflexivity. Qed.

(** ** The fetchers, stage by stage *)

Ltac unfold_body :=
  unfold semantic_scholar_body, crossref_body, primary_outcome,
    secondary_outcome, selected_author, candidates, answer_json,
    find_author_id, search_request, detail_request, requests_get,
    bind, lift, ret, exc_bind.

Lemma semantic_scholar_body_run (E : env) (log : list request) :
  semantic_scholar_body E log =
    (primary_outcome E, (log ++ primary_requests E)%list).
Proof.
  unfold primary_requests. unfold_body. simpl.
  destruct (http E (Get AuthorSearchUrl (Some search_params))) as [|r1];
    [reflexivity|].
  destruct (raise_for_status r1); [|reflexivity].
  destruct (json r1) as [found|]; [|reflexivity].
  destruct (py_get found "data" (PyList [])) as [authors|]; [|reflexivity].
  destruct (py_iter authors) as [cs|]; [|reflexivity].
  destruct (scan_authors cs) as [author_id|]; [|reflexivity].
  destruct (truthy author_id); simpl; [|reflexivity].
  rewrite <- app_assoc. simpl.
  destruct (http E (Get (AuthorUrl author_id) (Some detail_params))) as [|r2];
    [reflexivity|].
  destruct (raise_for_status r2); [|reflexivity].
  destruct (json r2) as [data|]; [|reflexivity].
  destruct (build_metrics data (today E)); reflexivity.
Qed.

Lemma fetch_semantic_scholar_result (E : env) (log : list request) :
  fst (fetch_semantic_scholar_metrics E log) = caught (primary_outcome E).
Proof.
  unfold fetch_semantic_scholar_metrics, try_except.
  rewrite semantic_scholar_body_run.
  destruct (primary_outcome E); reflexivity.
Qed.

Lemma fetch_semantic_scholar_log (E : env) (log : list request) :
  snd (fetch_semantic_scholar_metrics E log) = (log ++ primary_requests E)%list.
Proof.
  unfold fetch_semantic_scholar_metrics, try_except.
  rewrite semantic_scholar_body_run.
  destruct (primary_outcome E); reflexivity.
Qed.

Lemma fetch_crossref_result (E : env) (log : list request) :
  fst (fetch_crossref_metrics E log) = caught (secondary_outcome E).
Proof.
  unfold fetch_crossref_metrics, try_except, crossref_body, secondary_outcome,
    answer_json, requests_get, bind, lift, ret, exc_bind.
  simpl.
  destruct (http E (Get CrossrefWorksUrl None)) as [|r]; [reflexivity|].
  destruct (raise_for_status r); [|reflexivity].
  destruct (json r) as [data|]; [|reflexivity].
  destruct (crossref_summary data); reflexivity.
Qed.

Lemma primary_caught (E : env) : primary E = caught (primary_outcome E).
Proof. apply fetch_semantic_scholar_result. Qed.

Lemma secondary_caught (E : env) : secondary E = caught (secondary_outcome E).
Proof. apply fetch_crossref_result. Qed.

(** The requests a fetcher adds to the log. *)
Lemma fetch_crossref_log (E : env) (log : list request) :
  snd (fetch_crossref_metrics E log) = (log ++ [Get CrossrefWorksUrl None])%list.
Proof.
  unfold fetch_crossref_metrics, try_except, crossref_body, requests_get,
    bind, lift, ret.
  destruct (http E (Get CrossrefWorksUrl None)) as [|r]; [reflexivity|].
  destruct (raise_for_status r); [|reflexivity].
  destruct (json r) as [data|]; [|reflexivity].
  destruct (crossref_summary data); reflexivity.
Qed.

(** ** Shapes of the records *)

Lemma build_metrics_shape (data : pyval) (date : string) (m : dict) :
  build_metrics data date = Ok m ->
  exists d i10,
    data = PyDict d /\
    compute_i10 data = Ok i10 /\
    m = [ ("h_index", match Dict.lookup "hIndex" d with
                      | Some x => x | None => PyInt 0 end);
          ("i10_index", PyInt i10);
          ("total_citations", match Dict.lookup "citationCount" d with
                              | Some x => x | None => PyInt 0 end);
          ("publications_count", match Dict.lookup "publicationCount" d with
                                 | Some x => x | None => PyInt 0 end);
          ("last_updated", PyStr date);
          ("scholar_id", PyStr GOOGLE_SCHOLAR_ID);
          ("source", PyStr "Semantic Scholar");
          ("author_name", match Dict.lookup "name" d with
                          | Some x => x | None => PyStr AUTHOR_NAME end) ].
Proof.
  unfold build_metrics. intros H.
  destruct data as [| | | | |d]; try discriminate H.
  destruct (compute_i10 (PyDict d)) as [i10|] eqn:Hi; [|discriminate H].
  simpl in H. injection H as <-.
  exists d, i10. repeat split; reflexivity.
Qed.

Lemma build_metrics_dict (d : dict) (date : string) (i10 : Z) :
  compute_i10 (PyDict d) = Ok i10 ->
  build_metrics (PyDict d) date =
  Ok [ ("h_index", match Dict.lookup "hIndex" d with
                   | Some x => x | None => PyInt 0 end);
       ("i10_index", PyInt i10);
       ("total_citations", match Dict.lookup "citationCount" d with
                           | Some x => x | None => PyInt 0 end);
       ("publications_count", match Dict.lookup "publicationCount" d with
                              | Some x => x | None => PyInt 0 end);
       ("last_updated", PyStr date);
       ("scholar_id", PyStr GOOGLE_SCHOLAR_ID);
       ("source", PyStr "Semantic Scholar");
       ("author_name", match Dict.lookup "name" d with
                       | Some x => x | None => PyStr AUTHOR_NAME end) ].
Proof.
  intros Hi. unfold build_metrics. rewrite Hi. reflexivity.
Qed.

Lemma crossref_summary_shape (data : pyval) (s : dict) :
  crossref_summary data = Ok s ->
  exists total count,
    s = [ ("total_citations_crossref", PyInt total);
          ("publications_crossref", PyInt count) ].
Proof.
  unfold crossref_summary, exc_bind. intros H.
  destruct (py_get data "message" (PyDict [])) as [message|]; [|discriminate].
  destruct (py_get message "items" (PyList [])) as [items|]; [|discriminate].
  destruct (py_len items) as [count|]; [|discriminate].
  destruct (py_iter items) as [entries|]; [|discriminate].
  destruct (sum_citations entries 0) as [total|]; [|discriminate].
  injection H as <-. eauto.
Qed.

(** What the primary fetcher returned, when it returned a record. *)
Lemma primary_success_inv (E : env) (m : dict) :
  primary E = Some m ->
  exists author_id data,
    selected_author E = Ok author_id /\
    truthy author_id = true /\
    answer_json E (detail_request author_id) = Ok data /\
    build_metrics data (today E) = Ok m.
Proof.
  rewrite primary_caught. unfold primary_outcome, exc_bind.
  destruct (selected_author E) as [author_id|] eqn:Hs; [|discriminate].
  destruct (truthy author_id) eqn:Ht; simpl; [|discriminate].
  destruct (answer_json E (detail_request author_id)) as [data|] eqn:Ha;
    [|discriminate].
  destruct (build_metrics data (today E)) as [m'|] eqn:Hb; [|discriminate].
  simpl. intros [= <-]. exists author_id, data. auto.
Qed.

Lemma primary_success_intro (E : env) (author_id data : pyval) (m : dict) :
  selected_author E = Ok author_id ->
  truthy author_id = true ->
  answer_json E (detail_request author_id) = Ok data ->
  build_metrics data (today E) = Ok m ->
  primary E = Some m.
Proof.
  intros Hs Ht Ha Hb. rewrite primary_caught. unfold primary_outcome.
  rewrite Hs. simpl. rewrite Ht. simpl. rewrite Ha. simpl. rewrite Hb.
  reflexivity.
Qed.

Lemma secondary_success_inv (E : env) (s : dict) :
  secondary E = Some s ->
  exists data,
    answer_json E (Get CrossrefWorksUrl None) = Ok data /\
    crossref_summary data = Ok s.
Proof.
  rewrite secondary_caught. unfold secondary_outcome, exc_bind.
  destruct (answer_json E (Get CrossrefWorksUrl None)) as [data|] eqn:Ha;
    [|discriminate].
  destruct (crossref_summary data) as [s'|] eqn:Hc; [|discriminate].
  simpl. intros [= <-]. eauto.
Qed.

(** ** The orchestrator *)

Lemma main_unfold (E : env) (d : disk) :
  main E d =
    let r := or_fallback (merge (primary E) (secondary E)) (today E) in
    let (json_success, d1) := save_metrics_to_json E r json_file d in
    let (js_success, d2) := create_javascript_file E r js_file d1 in
    Run r
        (snd (fetch_crossref_metrics E
                (snd (fetch_semantic_scholar_metrics E []))))
        d2 (if json_success && js_success then 0 else 1).
Proof.
  unfold main, primary, secondary.
  rewrite (fetch_crossref_result E []).
  destruct (fetch_semantic_scholar_metrics E []) as [m log1] eqn:H1.
  pose proof (fetch_crossref_result E log1) as H2.
  destruct (fetch_crossref_metrics E log1) as [c log2] eqn:H3.
  simpl in *. rewrite <- H2, H3. reflexivity.
Qed.

Lemma main_persisted (E : env) (d : disk) :
  persisted (main E d) = or_fallback (merge (primary E) (secondary E)) (today E).
Proof.
  rewrite main_unfold. simpl.
  destruct (save_metrics_to_json E _ json_file d) as [b1 d1].
  destruct (create_javascript_file E _ js_file d1) as [b2 d2].
  reflexivity.
Qed.

Lemma main_issued (E : env) (d : disk) :
  issued (main E d) =
    (primary_requests E ++ [Get CrossrefWorksUrl None])%list.
Proof.
  rewrite main_unfold. simpl.
  destruct (save_metrics_to_json E _ json_file d) as [b1 d1].
  destruct (create_javascript_file E _ js_file d1) as [b2 d2].
  simpl. rewrite fetch_crossref_log, fetch_semantic_scholar_log. reflexivity.
Qed.

(** The record handed to the writers is the fallback, the primary record,
    or the primary record followed by the two supplementary fields. *)
Lemma persisted_cases (E : env) (d : disk) :
  (primary E = None /\ persisted (main E d) = get_fallback_metrics (today E)) \/
  (exists m, primary E = Some m /\ secondary E = None /\
             persisted (main E d) = m) \/
  (exists m s, primary E = Some m /\ secondary E = Some s /\
               persisted (main E d) = (m ++ s)%list).
Proof.
  rewrite main_persisted.
  destruct (primary E) as [m|] eqn:Hp.
  - right.
    destruct (primary_success_inv E _ Hp) as (a & data & _ & _ & _ & Hb).
    destruct (build_metrics_shape _ _ _ Hb) as (dd & i10 & _ & _ & ->).
    destruct (secondary E) as [s|] eqn:Hs.
    + right. eexists _, s. split; [reflexivity|]. split; [reflexivity|].
      destruct (secondary_success_inv E _ Hs) as (cdata & _ & Hc).
      destruct (crossref_summary_shape _ _ Hc) as (t & c & ->).
      reflexivity.
    + left. eexists. split; [reflexivity|]. split; reflexivity.
  - left. split; [reflexivity|].
    destruct (secondary E); reflexivity.
Qed.

Lemma persisted_shape (E : env) (d : disk) :
  exists h i10 cites pubs source name extra,
    persisted (main E d) =
      ([ ("h_index", h); ("i10_index", i10); ("total_citations", cites);
         ("publications_count", pubs); ("last_updated", PyStr (today E));
         ("scholar_id", PyStr GOOGLE_SCHOLAR_ID); ("source", source);
         ("author_name", name) ] ++ extra)%list /\
    (extra = [] \/
     exists total count,
       extra = [ ("total_citations_crossref", PyInt total);
                 ("publications_crossref", PyInt count) ]).
Proof.
  destruct (persisted_cases E d) as [[_ ->] | [(m & Hp & _ & ->) | (m & s & Hp & Hs & ->)]].
  - do 6 eexists. exists []. split; [reflexivity | left; reflexivity].
  - destruct (primary_success_inv E _ Hp) as (a & data & _ & _ & _ & Hb).
    destruct (build_metrics_shape _ _ _ Hb) as (dd & i10 & _ & _ & ->).
    do 6 eexists. exists []. split; [reflexivity | left; reflexivity].
  - destruct (primary_success_inv E _ Hp) as (a & data & _ & _ & _ & Hb).
    destruct (build_metrics_shape _ _ _ Hb) as (dd & i10 & _ & _ & ->).
    destruct (secondary_success_inv E _ Hs) as (cdata & _ & Hc).
    destruct (crossref_summary_shape _ _ Hc) as (t & c & ->).
    do 6 eexists. eexists. split; [reflexivity | right; eauto].
Qed.

(** The supplementary fields leave the primary record's fields alone. *)
Lemma persisted_keeps_primary (E : env) (d : disk) (m : dict) (k : string) :
  primary E = Some m ->
  In k record_fields ->
  Dict.lookup k (persisted (main E d)) = Dict.lookup k m.
Proof.
  intros Hp Hk.
  destruct (persisted_cases E d)
    as [[Hn _] | [(m' & Hp' & _ & ->) | (m' & s & Hp' & Hs & ->)]].
  - congruence.
  - congruence.
  - assert (m' = m) by congruence. subst m'.
    destruct (primary_success_inv E _ Hp) as (a & data & _ & _ & _ & Hb).
    destruct (build_metrics_shape _ _ _ Hb) as (dd & i10 & _ & _ & ->).
    destruct (secondary_success_inv E _ Hs) as (cdata & _ & Hc).
    destruct (crossref_summary_shape _ _ Hc) as (t & c & ->).
    revert Hk. unfold record_fields.
    intros [<- | [<- | [<- | [<- | [<- | [<- | [<- | [<- | []]]]]]]]];
      reflexivity.
Qed.

(** The snippet's fields can always be read off the record of a run. *)
Lemma persisted_js_content (E : env) (d : disk) :
  exists fields, js_content (persisted (main E d)) = Ok fields.
Proof.
  destruct (persisted_shape E d) as (h & i & c & p & src & n & extra & -> & _).
  eexists. reflexivity.
Qed.

Lemma main_writes (E : env) (d : disk) (fields : js_fields) :
  js_content (persisted (main E d)) = Ok fields ->
  let r := persisted (main E d) in
  files (after (main E d)) =
    write_effect E js_file (JsSnippet fields)
      (write_effect E json_file (JsonText 2 r) (files d)) /\
  attempts (after (main E d)) =
    (attempts d ++ [(json_file, r); (js_file, r)])%list /\
  exit_code (main E d) =
    if is_written (io E json_file) && is_written (io E js_file) then 0 else 1.
Proof.
  rewrite main_persisted. intros Hj. rewrite main_unfold. simpl.
  unfold save_metrics_to_json, create_javascript_file, open_and_write,
    write_effect.
  rewrite Hj.
  destruct (io E json_file) eqn:H1; destruct (io E js_file) eqn:H2; simpl;
    rewrite <- app_assoc; simpl; auto.
Qed.

Lemma main_exit_code (E : env) (d : disk) :
  exit_code (main E d) =
    if is_written (io E json_file) && is_written (io E js_file) then 0 else 1.
Proof.
  destruct (persisted_js_content E d) as [fields Hj].
  apply (main_writes E d _ Hj).
Qed.

Lemma main_attempts (E : env) (d : disk) :
  attempts (after (main E d)) =
    (attempts d ++ [ (json_file, persisted (main E d));
                     (js_file, persisted (main E d)) ])%list.
Proof.
  destruct (persisted_js_content E d) as [fields Hj].
  apply (main_writes E d _ Hj).
Qed.

(** ** Failure of the primary fetcher *)

Lemma request_fails_raises (E : env) (rq : request) :
  request_fails E rq -> exists e, answer_json E rq = Raise e.
Proof.
  unfold request_fails, answer_json, json.
  intros [H | (r & H & [Hs | Hb])]; rewrite H.
  - eauto.
  - rewrite Hs. simpl. eauto.
  - rewrite Hb. destruct (raise_for_status r); simpl; eauto.
Qed.

Lemma scan_authors_no_match (cs : list pyval) :
  Forall (fun c => name_matches c = Ok false) cs ->
  scan_authors cs = Ok PyNone.
Proof.
  induction 1 as [|c cs Hc _ IH]; simpl.
  - reflexivity.
  - rewrite Hc. simpl. exact IH.
Qed.

Lemma primary_failure_no_data (E : env) :
  primary_failure E -> primary E = None.
Proof.
  intros H. rewrite primary_caught. unfold primary_outcome.
  destruct H as [Hf | found e Ha Hm | cs e Hc Hr | cs Hc Hall
                 | author_id Hs Ht | author_id Hs Ht Hf
                 | author_id data e Hs Ht Ha Hb].
  - destruct (request_fails_raises _ _ Hf) as [e He].
    unfold selected_author, candidates. rewrite He. reflexivity.
  - unfold selected_author, candidates. rewrite Ha. simpl.
    unfold exc_bind in Hm.
    destruct (py_get found "data" (PyList [])) as [authors|]; simpl.
    + rewrite Hm. reflexivity.
    + reflexivity.
  - unfold selected_author. rewrite Hc. simpl. rewrite Hr. reflexivity.
  - unfold selected_author. rewrite Hc. simpl.
    rewrite (scan_authors_no_match _ Hall). reflexivity.
  - rewrite Hs. simpl. rewrite Ht. reflexivity.
  - destruct (request_fails_raises _ _ Hf) as [e He].
    rewrite Hs. simpl. rewrite Ht. simpl. rewrite He. reflexivity.
  - rewrite Hs. simpl. rewrite Ht. simpl. rewrite Ha. simpl. rewrite Hb.
    reflexivity.
Qed.

Lemma no_data_gives_fallback (E : env) (d : disk) :
  primary E = None ->
  persisted (main E d) = get_fallback_metrics (today E).
Proof.
  intros Hp. rewrite main_persisted, Hp.
  destruct (secondary E); reflexivity.
Qed.

Lemma answer_json_raise_fails (E : env) (rq : request) (e : exn) :
  answer_json E rq = Raise e -> request_fails E rq.
Proof.
  unfold answer_json, request_fails, raise_for_status, json.
  destruct (http E rq) as [|r]; [intros _; left; reflexivity|].
  intros H. right. exists r. split; [reflexivity|].
  destruct ((400 <=? status_code r) && (status_code r <? 600)); simpl in H.
  - left. reflexivity.
  - right. destruct (body r); [discriminate H | reflexivity].
Qed.

Lemma no_data_primary_failure (E : env) :
  primary E = None -> primary_failure E.
Proof.
  rewrite primary_caught. unfold primary_outcome.
  destruct (selected_author E) as [author_id|e] eqn:Hs; simpl.
  - destruct (truthy author_id) eqn:Ht; simpl.
    + destruct (answer_json E (detail_request author_id)) as [data|e] eqn:Ha;
        simpl.
      * destruct (build_metrics data (today E)) as [m|e] eqn:Hb; simpl.
        -- discriminate.
        -- intros _. exact (detail_malformed E author_id data e Hs Ht Ha Hb).
      * intros _. apply (detail_fails E author_id Hs Ht).
        exact (answer_json_raise_fails E _ e Ha).
    + intros _. exact (falsy_author_id E author_id Hs Ht).
  - intros _. unfold selected_author in Hs.
    destruct (candidates E) as [cs|e'] eqn:Hc; simpl in Hs.
    + exact (candidate_malformed E cs e Hc Hs).
    + unfold candidates in Hc.
      destruct (answer_json E search_request) as [found|e''] eqn:Ha;
        simpl in Hc.
      * exact (search_malformed E found e' Ha Hc).
      * apply search_fails. exact (answer_json_raise_fails E _ e'' Ha).
Qed.

Lemma raise_for_status_range (r : response) :
  raise_for_status r = Raise HTTPError <-> 400 <= status_code r < 600.
Proof.
  unfold raise_for_status.
  destruct ((400 <=? status_code r) && (status_code r <? 600)) eqn:H.
  - apply andb_true_iff in H. split; [intros _; lia | reflexivity].
  - apply andb_false_iff in H. split; [discriminate | intros; lia].
Qed.

(** C1, as amended.  The primary fetcher returns no data exactly in the
    runs of [primary_failure]: a request raises, comes back with a status
    from 400 to 599 (what [raise_for_status] rejects; any other status is
    let through) or with an undecodable body; a body decodes but lacks the
    expected shape; the scan raises; or no candidate of that surname with a
    truthy id is found.  In every such run the persisted record is the
    fallback provider's: h-index 6, i10-index 3, 124 citations, 10
    publications, the configured scholar id and author name, source
    "Manual (fallback)", dated with the run date. *)
Theorem fallback_record_on_primary_failure (E : env) (d : disk) :
  (primary_failure E <-> primary E = None) /\
  (forall r, raise_for_status r = Raise HTTPError <->
             400 <= status_code r < 600) /\
  (primary E = None ->
   persisted (main E d) =
     [ ("h_index", PyInt 6);
       ("i10_index", PyInt 3);
       ("total_citations", PyInt 124);
       ("publications_count", PyInt 10);
       ("last_updated", PyStr (today E));
       ("scholar_id", PyStr "H8fc2JgAAAAJ");
       ("source", PyStr "Manual (fallback)");
       ("author_name", PyStr "Evangelos-Marios Nikolados") ]).
Proof.
  split; [|split].
  - split; [apply primary_failure_no_data | apply no_data_primary_failure].
  - apply raise_for_status_range.
  - intros Hp. rewrite (no_data_gives_fallback E d Hp). reflexivity.
Qed.

Lemma offline_primary_failure : primary_failure offline_env.
Proof. apply search_fails. left. reflexivity. Defined.

Lemma fallback_record_on_primary_failure_witness :
  persisted (main offline_env empty_disk) =
    [ ("h_index", PyInt 6);
      ("i10_index", PyInt 3);
      ("total_citations", PyInt 124);
      ("publications_count", PyInt 10);
      ("last_updated", PyStr "2025-01-15");
      ("scholar_id", PyStr "H8fc2JgAAAAJ");
      ("source", PyStr "Manual (fallback)");
      ("author_name", PyStr "Evangelos-Marios Nikolados") ] /\
  primary_failure list_body_env /\
  persisted (main list_body_env empty_disk) =
    persisted (main offline_env empty_disk).
Proof.
  destruct (fallback_record_on_primary_failure offline_env empty_disk)
    as (Hiff & _ & Hrec).
  destruct (fallback_record_on_primary_failure list_body_env empty_disk)
    as (Hiff' & _ & Hrec').
  split; [exact (Hrec (proj1 Hiff offline_primary_failure))|].
  split; [exact (proj2 Hiff' eq_refl)|].
  rewrite (Hrec' eq_refl), (Hrec (proj1 Hiff offline_primary_failure)).
  reflexivity.
Defined.

(** C1, as stated, fails: both scholarly-graph requests of [redirect_env]
    come back with status 300, a non-success status, yet their bodies are
    processed and the persisted record is the primary one, not the
    fallback. *)
Lemma non_success_status_without_fallback :
  http redirect_env search_request =
    Answer (Response 300 (Some sample_search)) /\
  http redirect_env (detail_request (PyStr "1752417")) =
    Answer (Response 300 (Some sample_detail)) /\
  non_success (Response 300 (Some sample_search)) = true /\
  non_success (Response 300 (Some sample_detail)) = true /\
  primary redirect_env = Some sample_record /\
  persisted (main redirect_env empty_disk) <>
    get_fallback_metrics (today redirect_env).
Proof.
  repeat (split; [reflexivity|]).
  vm_compute. discriminate.
Qed.

(** C6.  When the primary fetcher returns no data, the persisted record is
    the fallback provider's record unchanged, whatever the secondary fetcher
    returned: its fields are the eight fallback fields and neither
    supplementary field is bound. *)
Theorem secondary_discarded_on_primary_failure (E : env) (d : disk) :
  primary E = None ->
  persisted (main E d) = get_fallback_metrics (today E) /\
  (forall s : option dict,
      or_fallback (merge None s) (today E) = get_fallback_metrics (today E)) /\
  Dict.keys (persisted (main E d)) = record_fields /\
  (forall k, In k supplementary_fields ->
             Dict.lookup k (persisted (main E d)) = None).
Proof.
  intros Hp. rewrite (no_data_gives_fallback E d Hp).
  split; [reflexivity|]. split; [intros [s|]; reflexivity|].
  split; [reflexivity|].
  intros k [<- | [<- | []]]; reflexivity.
Qed.

Lemma secondary_discarded_on_primary_failure_witness :
  secondary offline_env =
    Some [ ("total_citations_crossref", PyInt 12);
           ("publications_crossref", PyInt 3) ] /\
  persisted (main offline_env empty_disk) = get_fallback_metrics "2025-01-15" /\
  Dict.lookup "total_citations_crossref"
              (persisted (main offline_env empty_disk)) = None /\
  Dict.lookup "publications_crossref"
              (persisted (main offline_env empty_disk)) = None.
Proof.
  destruct (secondary_discarded_on_primary_failure offline_env empty_disk
              (primary_failure_no_data offline_env offline_primary_failure))
    as (Hr & _ & _ & Hk).
  split; [reflexivity|]. split; [exact Hr|].
  split; apply Hk; simpl; auto.
Defined.

(** ** Exit code and write attempts *)

(** C4.  The exit code is 0 exactly when both the data file and the snippet
    file were written, and 1 otherwise; both writes are attempted, in this
    order and with the same record, whatever the outcome of the first. *)
Theorem exit_code_reflects_both_writes (E : env) (d : disk) :
  (exit_code (main E d) = 0 <->
   io E json_file = Written /\ io E js_file = Written) /\
  (exit_code (main E d) = 1 <->
   io E json_file <> Written \/ io E js_file <> Written) /\
  attempts (after (main E d)) =
    (attempts d ++ [ (json_file, persisted (main E d));
                     (js_file, persisted (main E d)) ])%list.
Proof.
  rewrite main_exit_code.
  split; [|split; [|apply main_attempts]].
  - destruct (io E json_file), (io E js_file); simpl;
      split; intros H; try discriminate H; try (destruct H; congruence);
      auto.
  - destruct (io E json_file), (io E js_file); simpl;
      split; intros H; try discriminate H; try reflexivity;
      try (destruct H; congruence);
      first [left; discriminate | right; discriminate].
Qed.

(** ** The i10-index *)

Lemma i10_index_spec_cons (p : pyval) (ps : list pyval) :
  i10_index_spec (p :: ps) =
    (if 10 <=? citation_count p then 1 else 0) + i10_index_spec ps.
Proof.
  unfold i10_index_spec. simpl.
  destruct (10 <=? citation_count p); simpl List.length; lia.
Qed.

(** The loop of lines 57-59 counts what the specification words. *)
Lemma count_i10_spec (entries : list pyval) :
  forall acc n,
    count_i10 entries acc = Ok n -> n = acc + i10_index_spec entries.
Proof.
  induction entries as [|p ps IH]; intros acc n H.
  - simpl in H. injection H as <-. unfold i10_index_spec. simpl. lia.
  - rewrite i10_index_spec_cons. simpl in H.
    destruct p as [| | | | |pd]; try discriminate H.
    unfold py_get, py_ge, exc_bind, citation_count in *.
    destruct (Dict.lookup "citationCount" pd) as [v|].
    + destruct (as_int v) as [x|]; [|discriminate H].
      apply IH in H. destruct (10 <=? x); lia.
    + simpl in H. apply IH in H. simpl. lia.
Qed.

Lemma compute_i10_inv (data : pyval) (n : Z) :
  compute_i10 data = Ok n ->
  exists papers entries,
    py_get data "papers" (PyList []) = Ok papers /\
    py_iter papers = Ok entries /\
    n = i10_index_spec entries.
Proof.
  unfold compute_i10, exc_bind. intros H.
  destruct (py_get data "papers" (PyList [])) as [papers|] eqn:H1;
    [|discriminate].
  destruct (py_iter papers) as [entries|] eqn:H2; [|discriminate].
  apply count_i10_spec in H. exists papers, entries.
  repeat split; [assumption | lia].
Qed.

(** C3.  After a successful primary fetch the persisted i10-index is the
    number of entries of the returned paper list whose citation count, a
    missing one read as 0, is at least 10.  A paper with exactly 10 citations
    counts, one with 9 or without a count does not.  For the detail body
    [sample_detail] of the specification's example the record holds i10-index
    1, 124 citations and 10 publications. *)
Theorem i10_index_counts_papers (E : env) (d : disk) (m : dict) :
  primary E = Some m ->
  (exists author_id data papers entries,
      selected_author E = Ok author_id /\
      answer_json E (detail_request author_id) = Ok data /\
      py_get data "papers" (PyList []) = Ok papers /\
      py_iter papers = Ok entries /\
      Dict.lookup "i10_index" (persisted (main E d)) =
        Some (PyInt (i10_index_spec entries)) /\
      (data = sample_detail ->
       Dict.lookup "i10_index" (persisted (main E d)) = Some (PyInt 1) /\
       Dict.lookup "total_citations" (persisted (main E d)) =
         Some (PyInt 124) /\
       Dict.lookup "publications_count" (persisted (main E d)) =
         Some (PyInt 10))) /\
  compute_i10 (one_paper (PyInt 10)) = Ok 1 /\
  compute_i10 (one_paper (PyInt 9)) = Ok 0 /\
  compute_i10 (PyDict [ ("papers", PyList [ PyDict [] ]) ]) = Ok 0.
Proof.
  intros Hp. split; [|repeat split; reflexivity].
  destruct (primary_success_inv E _ Hp) as (a & data & Hs & _ & Ha & Hb).
  destruct (build_metrics_shape _ _ _ Hb) as (dd & i10 & Hd & Hi & Hm).
  destruct (compute_i10_inv _ _ Hi) as (papers & entries & H1 & H2 & H3).
  assert (Hk : forall k, In k record_fields ->
                         Dict.lookup k (persisted (main E d)) = Dict.lookup k m)
    by (intros k; apply persisted_keeps_primary; exact Hp).
  exists a, data, papers, entries.
  repeat (split; [assumption|]).
  split.
  - rewrite Hk by (simpl; auto). rewrite Hm, H3. reflexivity.
  - intros ->. rewrite !Hk by (simpl; auto).
    injection Hd as <-.
    assert (i10 = 1) as -> by (vm_compute in Hi; congruence).
    rewrite Hm. repeat split; reflexivity.
Qed.

Lemma i10_index_counts_papers_witness :
  exists author_id data papers entries,
    selected_author sample_env = Ok author_id /\
    answer_json sample_env (detail_request author_id) = Ok data /\
    py_get data "papers" (PyList []) = Ok papers /\
    py_iter papers = Ok entries /\
    Dict.lookup "i10_index" (persisted (main sample_env empty_disk)) =
      Some (PyInt (i10_index_spec entries)) /\
    (data = sample_detail ->
     Dict.lookup "i10_index" (persisted (main sample_env empty_disk)) =
       Some (PyInt 1) /\
     Dict.lookup "total_citations" (persisted (main sample_env empty_disk)) =
       Some (PyInt 124) /\
     Dict.lookup "publications_count" (persisted (main sample_env empty_disk)) =
       Some (PyInt 10)).
Proof.
  refine (proj1 (i10_index_counts_papers sample_env empty_disk
                   sample_record _)).
  reflexivity.
Defined.

(** ** Defaults for missing aggregate fields *)

(** C10.  When the author-detail body is an object whose paper list can be
    counted, the primary fetcher returns a record whether or not the
    aggregate fields are there: the record is the fetcher's, not the
    fallback, and a missing [hIndex], [citationCount] or [publicationCount]
    is persisted as 0, a missing [name] as the configured author name. *)
Theorem missing_aggregates_default (E : env) (d : disk)
    (author_id : pyval) (dd : dict) (i10 : Z) :
  selected_author E = Ok author_id ->
  truthy author_id = true ->
  answer_json E (detail_request author_id) = Ok (PyDict dd) ->
  compute_i10 (PyDict dd) = Ok i10 ->
  let r := persisted (main E d) in
  (exists m, primary E = Some m) /\
  Dict.lookup "source" r = Some (PyStr "Semantic Scholar") /\
  (Dict.lookup "hIndex" dd = None ->
   Dict.lookup "h_index" r = Some (PyInt 0)) /\
  (Dict.lookup "citationCount" dd = None ->
   Dict.lookup "total_citations" r = Some (PyInt 0)) /\
  (Dict.lookup "publicationCount" dd = None ->
   Dict.lookup "publications_count" r = Some (PyInt 0)) /\
  (Dict.lookup "name" dd = None ->
   Dict.lookup "author_name" r = Some (PyStr AUTHOR_NAME)).
Proof.
  intros Hs Ht Ha Hi r. subst r.
  pose proof (build_metrics_dict dd (today E) i10 Hi) as Hb.
  pose proof (primary_success_intro E _ _ _ Hs Ht Ha Hb) as Hp.
  split; [eauto|].
  rewrite !(persisted_keeps_primary E d _ _ Hp) by (simpl; tauto).
  simpl. split; [reflexivity|].
  repeat split; intros ->; reflexivity.
Qed.

Lemma missing_aggregates_default_witness :
  Dict.lookup "source" (persisted (main bare_env empty_disk)) =
    Some (PyStr "Semantic Scholar") /\
  Dict.lookup "h_index" (persisted (main bare_env empty_disk)) =
    Some (PyInt 0) /\
  Dict.lookup "total_citations" (persisted (main bare_env empty_disk)) =
    Some (PyInt 0) /\
  Dict.lookup "publications_count" (persisted (main bare_env empty_disk)) =
    Some (PyInt 0) /\
  Dict.lookup "author_name" (persisted (main bare_env empty_disk)) =
    Some (PyStr "Evangelos-Marios Nikolados").
Proof.
  destruct (missing_aggregates_default bare_env empty_disk
              (PyStr "1752417") [] 0
              eq_refl eq_refl eq_refl eq_refl)
    as (_ & Hsrc & Hh & Hc & Hp & Hn).
  split; [exact Hsrc|].
  split; [exact (Hh eq_refl)|].
  split; [exact (Hc eq_refl)|].
  split; [exact (Hp eq_refl) | exact (Hn eq_refl)].
Defined.

(** ** Choice of the author *)




(** ** The supplementary fields *)

(** The loop of lines 105-106 sums what the specification words. *)
Lemma sum_citations_spec (items : list pyval) :
  forall acc n,
    sum_citations items acc = Ok n -> n = acc + citation_sum_spec items.
Proof.
  induction items as [|item rest IH]; intros acc n H.
  - simpl in H. injection H as <-. simpl. lia.
  - simpl in H.
    destruct item as [| | | | |idict]; try discriminate H.
    unfold py_get, py_add, exc_bind in H.
    simpl citation_sum_spec. unfold referenced_by.
    destruct (Dict.lookup "is-referenced-by-count" idict) as [v|].
    + destruct (as_int v) as [x|]; [|discriminate H].
      apply IH in H. lia.
    + simpl in H. apply IH in H. lia.
Qed.

Lemma length_list_ascii (s : string) :
  List.length (list_ascii_of_string s) = String.length s.
Proof. induction s; simpl; congruence. Qed.

(** [len(v)] is the number of elements a loop over [v] visits. *)
Lemma py_len_iter (v : pyval) (n : Z) (entries : list pyval) :
  py_len v = Ok n -> py_iter v = Ok entries ->
  n = Z.of_nat (List.length entries).
Proof.
  destruct v; simpl; try discriminate; intros [= <-] [= <-].
  - rewrite length_map, length_list_ascii. reflexivity.
  - reflexivity.
  - unfold Dict.keys. rewrite !length_map. reflexivity.
Qed.

Lemma crossref_summary_inv (data : pyval) (s : dict) :
  crossref_summary data = Ok s ->
  exists message items entries,
    py_get data "message" (PyDict []) = Ok message /\
    py_get message "items" (PyList []) = Ok items /\
    py_iter items = Ok entries /\
    s = [ ("total_citations_crossref", PyInt (citation_sum_spec entries));
          ("publications_crossref", PyInt (Z.of_nat (List.length entries))) ].
Proof.
  unfold crossref_summary, exc_bind. intros H.
  destruct (py_get data "message" (PyDict [])) as [message|] eqn:H1;
    [|discriminate].
  destruct (py_get message "items" (PyList [])) as [items|] eqn:H2;
    [|discriminate].
  destruct (py_len items) as [count|] eqn:H3; [|discriminate].
  destruct (py_iter items) as [entries|] eqn:H4; [|discriminate].
  destruct (sum_citations entries 0) as [total|] eqn:H5; [|discriminate].
  injection H as <-.
  apply sum_citations_spec in H5.
  rewrite (py_len_iter _ _ _ H3 H4), H5.
  exists message, items, entries. repeat split; assumption || reflexivity.
Qed.

(** C5.  After a successful primary fetch: when the secondary fetcher
    returns data, the persisted record is the primary record followed by the
    two supplementary fields, the supplementary citation count being the sum
    of the referenced-by counters of the returned items (a missing counter
    read as 0) and the supplementary publication count their number; when
    the secondary fetcher returns no data, the persisted record is the
    primary record alone, neither supplementary field is bound, and the run
    goes on to both writes and an exit code. *)
Theorem supplementary_fields_follow_secondary (E : env) (d : disk) (m : dict) :
  primary E = Some m ->
  Dict.keys m = record_fields /\
  (forall s,
      secondary E = Some s ->
      persisted (main E d) = (m ++ s)%list /\
      Forall (fun k => bound k (persisted (main E d)))
             (primary_fields ++ supplementary_fields) /\
      exists data message items entries,
        answer_json E (Get CrossrefWorksUrl None) = Ok data /\
        py_get data "message" (PyDict []) = Ok message /\
        py_get message "items" (PyList []) = Ok items /\
        py_iter items = Ok entries /\
        Dict.lookup "total_citations_crossref" (persisted (main E d)) =
          Some (PyInt (citation_sum_spec entries)) /\
        Dict.lookup "publications_crossref" (persisted (main E d)) =
          Some (PyInt (Z.of_nat (List.length entries)))) /\
  (secondary E = None ->
   persisted (main E d) = m /\
   (forall k, In k supplementary_fields ->
              Dict.lookup k (persisted (main E d)) = None) /\
   attempts (after (main E d)) =
     (attempts d ++ [ (json_file, m); (js_file, m) ])%list /\
   (exit_code (main E d) = 0 \/ exit_code (main E d) = 1)).
Proof.
  intros Hp.
  destruct (primary_success_inv E _ Hp) as (a & data & _ & _ & _ & Hb).
  destruct (build_metrics_shape _ _ _ Hb) as (dd & i10 & _ & _ & Hm).
  split; [rewrite Hm; reflexivity|]. split.
  - intros s Hs.
    destruct (secondary_success_inv E _ Hs) as (cdata & Ha & Hc).
    destruct (crossref_summary_inv _ _ Hc)
      as (message & items & entries & H1 & H2 & H3 & H4).
    assert (Hr : persisted (main E d) = (m ++ s)%list).
    { destruct (persisted_cases E d)
        as [[Hn _] | [(m' & Hp' & Hs' & _) | (m' & s' & Hp' & Hs' & ->)]];
        congruence. }
    split; [exact Hr|]. split.
    + rewrite Hr, Hm, H4. unfold bound.
      repeat constructor; eexists; reflexivity.
    + exists cdata, message, items, entries.
      repeat (split; [assumption|]).
      rewrite Hr, Hm, H4. split; reflexivity.
  - intros Hs.
    assert (Hr : persisted (main E d) = m).
    { destruct (persisted_cases E d)
        as [[Hn _] | [(m' & Hp' & Hs' & ->) | (m' & s' & Hp' & Hs' & _)]];
        congruence. }
    split; [exact Hr|]. split; [|split].
    + rewrite Hr, Hm. intros k [<- | [<- | []]]; reflexivity.
    + rewrite main_attempts, Hr. reflexivity.
    + rewrite main_exit_code.
      destruct (is_written (io E json_file) && is_written (io E js_file));
        auto.
Qed.

Lemma supplementary_fields_follow_secondary_witness :
  persisted (main sample_env empty_disk) =
    (sample_record ++ [ ("total_citations_crossref", PyInt 12);
                        ("publications_crossref", PyInt 3) ])%list /\
  persisted (main bare_env empty_disk) =
    [ ("h_index", PyInt 0);
      ("i10_index", PyInt 0);
      ("total_citations", PyInt 0);
      ("publications_count", PyInt 0);
      ("last_updated", PyStr "2025-01-15");
      ("scholar_id", PyStr "H8fc2JgAAAAJ");
      ("source", PyStr "Semantic Scholar");
      ("author_name", PyStr "Evangelos-Marios Nikolados") ].
Proof.
  split.
  - destruct (supplementary_fields_follow_secondary
                sample_env empty_disk sample_record eq_refl)
      as (_ & Hsome & _).
    exact (proj1 (Hsome _ eq_refl)).
  - destruct (supplementary_fields_follow_secondary
                bare_env empty_disk _ eq_refl)
      as (_ & _ & Hnone).
    exact (proj1 (Hnone eq_refl)).
Defined.

(** ** Determinism and regeneration of the output *)

Lemma lookup_set (k k' : string) (v : pyval) (d : dict) :
  Dict.lookup k (Dict.set k' v d) =
    if String.eqb k k' then Some v else Dict.lookup k d.
Proof.
  induction d as [|[k0 v0] d IH]; simpl.
  - reflexivity.
  - destruct (String.eqb k' k0) eqn:H0; simpl.
    + apply String.eqb_eq in H0. subst k0.
      destruct (String.eqb k k'); reflexivity.
    + rewrite IH.
      destruct (String.eqb k k0) eqn:H1; [|reflexivity].
      apply String.eqb_eq in H1. subst k0.
      rewrite String.eqb_sym in H0. rewrite H0. reflexivity.
Qed.

Lemma lookup_stamp (k date : string) (d : dict) :
  k <> "last_updated" ->
  Dict.lookup k (stamp date d) = Dict.lookup k d.
Proof.
  intros Hk. unfold stamp. rewrite lookup_set.
  apply String.eqb_neq in Hk. rewrite Hk. reflexivity.
Qed.

Lemma keys_set (k : string) (v : pyval) (d : dict) :
  Dict.mem k d = true -> Dict.keys (Dict.set k v d) = Dict.keys d.
Proof.
  unfold Dict.mem.
  induction d as [|[k0 v0] d IH]; simpl; [discriminate|].
  destruct (String.eqb k k0); simpl; [reflexivity|].
  intros H. rewrite IH by exact H. reflexivity.
Qed.

Section SameAnswers.

Variables E1 E2 : env.
Hypothesis same_http : forall rq, http E1 rq = http E2 rq.

Lemma answer_json_same (rq : request) :
  answer_json E2 rq = answer_json E1 rq.
Proof. unfold answer_json. rewrite same_http. reflexivity. Qed.

Lemma selected_author_same : selected_author E2 = selected_author E1.
Proof.
  unfold selected_author, candidates. rewrite answer_json_same. reflexivity.
Qed.

Lemma primary_requests_same : primary_requests E2 = primary_requests E1.
Proof. unfold primary_requests. rewrite selected_author_same. reflexivity. Qed.

Lemma secondary_same : secondary E2 = secondary E1.
Proof.
  rewrite !secondary_caught. unfold secondary_outcome.
  rewrite answer_json_same. reflexivity.
Qed.

Lemma build_metrics_stamp (data : pyval) :
  build_metrics data (today E2) =
    match build_metrics data (today E1) with
    | Ok m => Ok (stamp (today E2) m)
    | Raise e => Raise e
    end.
Proof.
  unfold build_metrics.
  destruct (compute_i10 data) as [i10|]; simpl; [|reflexivity].
  destruct data; reflexivity.
Qed.

Lemma primary_stamp :
  primary E2 = option_map (stamp (today E2)) (primary E1).
Proof.
  rewrite !primary_caught. unfold primary_outcome.
  rewrite selected_author_same.
  destruct (selected_author E1) as [author_id|]; simpl; [|reflexivity].
  destruct (truthy author_id); simpl; [|reflexivity].
  rewrite answer_json_same.
  destruct (answer_json E1 (detail_request author_id)) as [data|]; simpl;
    [|reflexivity].
  rewrite build_metrics_stamp.
  destruct (build_metrics data (today E1)); reflexivity.
Qed.

Lemma persisted_stamp (d1 d2 : disk) :
  persisted (main E2 d2) = stamp (today E2) (persisted (main E1 d1)).
Proof.
  rewrite !main_persisted, primary_stamp, secondary_same.
  destruct (primary E1) as [m|] eqn:Hp; simpl.
  - destruct (primary_success_inv E1 _ Hp) as (a & data & _ & _ & _ & Hb).
    destruct (build_metrics_shape _ _ _ Hb) as (dd & i10 & _ & _ & ->).
    destruct (secondary E1) as [s|] eqn:Hs; [|reflexivity].
    destruct (secondary_success_inv E1 _ Hs) as (cdata & _ & Hc).
    destruct (crossref_summary_shape _ _ Hc) as (t & c & ->).
    reflexivity.
  - destruct (secondary E1); reflexivity.
Qed.

End SameAnswers.

(** After a run that exits with 0, both output files hold the rendering of
    the run's record, whatever they held before. *)
Lemma files_after_success (E : env) (d : disk) :
  exit_code (main E d) = 0 ->
  exists fields,
    js_content (persisted (main E d)) = Ok fields /\
    files (after (main E d)) json_file =
      Some (Complete (JsonText 2 (persisted (main E d)))) /\
    files (after (main E d)) js_file = Some (Complete (JsSnippet fields)).
Proof.
  rewrite main_exit_code. intros He.
  destruct (persisted_js_content E d) as [fields Hj].
  exists fields. split; [exact Hj|].
  destruct (main_writes E d _ Hj) as (Hf & _ & _).
  rewrite Hf. unfold write_effect.
  destruct (io E json_file); try discriminate He.
  destruct (io E js_file); try discriminate He.
  split; reflexivity.
Qed.

(** C9.  Two runs that receive the same HTTP answers issue the same requests
    and persist records with the same fields and, the last-updated date
    aside, the same values: the second record is the first one re-dated.
    A run that exits with 0 leaves both output files holding the rendering
    of its own record, whatever they held before. *)
Theorem rerun_reproduces_record (E1 E2 : env) (d1 d2 : disk) :
  (forall rq, http E1 rq = http E2 rq) ->
  persisted (main E2 d2) = stamp (today E2) (persisted (main E1 d1)) /\
  (forall k, k <> "last_updated" ->
             Dict.lookup k (persisted (main E2 d2)) =
             Dict.lookup k (persisted (main E1 d1))) /\
  Dict.keys (persisted (main E2 d2)) = Dict.keys (persisted (main E1 d1)) /\
  issued (main E2 d2) = issued (main E1 d1) /\
  (exit_code (main E1 d1) = 0 ->
   exists fields,
     js_content (persisted (main E1 d1)) = Ok fields /\
     files (after (main E1 d1)) json_file =
       Some (Complete (JsonText 2 (persisted (main E1 d1)))) /\
     files (after (main E1 d1)) js_file = Some (Complete (JsSnippet fields))).
Proof.
  intros Hsame.
  pose proof (persisted_stamp E1 E2 Hsame d1 d2) as Hr.
  split; [exact Hr|]. split; [|split; [|split]].
  - intros k Hk. rewrite Hr. apply lookup_stamp. exact Hk.
  - rewrite Hr. unfold stamp. apply keys_set.
    destruct (persisted_shape E1 d1)
      as (h & i & c & p & src & n & extra & -> & _).
    reflexivity.
  - rewrite !main_issued, (primary_requests_same E1 E2 Hsame). reflexivity.
  - apply files_after_success.
Qed.

Lemma rerun_reproduces_record_witness :
  persisted (main later_env used_disk) =
    stamp "2025-02-01" (persisted (main sample_env empty_disk)) /\
  files (after (main sample_env used_disk)) json_file =
    Some (Complete (JsonText 2 (persisted (main sample_env used_disk)))).
Proof.
  split.
  - exact (proj1 (rerun_reproduces_record sample_env later_env
                    empty_disk used_disk (fun rq => eq_refl))).
  - destruct (rerun_reproduces_record sample_env sample_env
                used_disk used_disk (fun rq => eq_refl))
      as (_ & _ & _ & _ & Hfiles).
    destruct (Hfiles eq_refl) as (fields & _ & Hjson & _).
    exact Hjson.
Defined.

(** ** The works-search request *)

(** C2.  The request the secondary fetcher issues carries no parameters: the
    author name and the row limit of 100 prepared in [crossref_params] never
    reach the service.  In [unfiltered_env], where the author query would
    list one work, the fetcher counts the three works of the unfiltered
    listing instead. *)
Theorem crossref_request_drops_params (E : env) (d : disk) :
  issued (main E d) = (primary_requests E ++ [Get CrossrefWorksUrl None])%list /\
  ~ In (Get CrossrefWorksUrl (Some crossref_params)) (issued (main E d)) /\
  answer_json unfiltered_env (Get CrossrefWorksUrl (Some crossref_params)) =
    Ok author_works /\
  crossref_summary author_works =
    Ok [ ("total_citations_crossref", PyInt 40);
         ("publications_crossref", PyInt 1) ] /\
  secondary unfiltered_env =
    Some [ ("total_citations_crossref", PyInt 12);
           ("publications_crossref", PyInt 3) ].
Proof.
  split; [apply main_issued|]. split; [|repeat split; reflexivity].
  rewrite main_issued. unfold primary_requests. intros H.
  apply in_app_or in H. destruct H as [H | [H | []]]; [|discriminate H].
  destruct H as [H | H]; [discriminate H|].
  destruct (selected_author E) as [author_id|]; [|destruct H].
  destruct (truthy author_id); [|destruct H].
  destruct H as [H | []]. discriminate H.
Qed.

(** * Further properties of the script *)

(** ** Requests of a run *)

(** X1.  A run issues two or three requests and never repeats one: the
    author search first, the author-detail request only when the search
    selected a truthy author id, and the works request last -- also when the
    primary fetcher failed. *)
Theorem run_request_sequence (E : env) (d : disk) :
  exists middle,
    issued (main E d) =
      (search_request :: middle ++ [Get CrossrefWorksUrl None])%list /\
    ((middle = [] /\
      forall author_id, selected_author E = Ok author_id ->
                        truthy author_id = false) \/
     (exists author_id,
         middle = [detail_request author_id] /\
         selected_author E = Ok author_id /\
         truthy author_id = true)).
Proof.
  rewrite main_issued. unfold primary_requests.
  destruct (selected_author E) as [author_id|e] eqn:Hs.
  - destruct (truthy author_id) eqn:Ht.
    + exists [detail_request author_id]. split; [reflexivity|].
      right. exists author_id. auto.
    + exists []. split; [reflexivity|].
      left. split; [reflexivity|]. intros a [= <-]. exact Ht.
  - exists []. split; [reflexivity|].
    left. split; [reflexivity|]. intros a H. discriminate H.
Qed.

(** ** Candidates the scan stops on *)

Lemma scan_authors_skip (pre rest : list pyval) :
  Forall (fun c => name_matches c = Ok false) pre ->
  scan_authors (pre ++ rest) = scan_authors rest.
Proof.
  induction 1 as [|c pre Hc _ IH]; simpl.
  - reflexivity.
  - rewrite Hc. simpl. exact IH.
Qed.

Lemma primary_of_selection (E : env) (r : exc pyval) :
  selected_author E = r ->
  semantic_scholar_body E [] =
    (primary_outcome E, primary_requests E) /\
  primary_outcome E =
    (let? author_id := r in
     if negb (truthy author_id) then Ok None
     else
       let? data := answer_json E (detail_request author_id) in
       let? metrics := build_metrics data (today E) in
       Ok (Some metrics)).
Proof.
  intros <-. split; [apply semantic_scholar_body_run | reflexivity].
Qed.



(** X3.  When the scan reaches a candidate on which the name test raises, or
    a candidate of that surname without an [authorId] key, the exception
    leaves the [try] body, the fetcher returns no data and the run persists
    the fallback record; later candidates are not looked at. *)
Theorem raising_candidate_fails_fetch (E : env) (d : disk)
    (pre post : list pyval) (a : pyval) (e : exn) :
  candidates E = Ok (pre ++ a :: post)%list ->
  Forall (fun c => name_matches c = Ok false) pre ->
  name_matches a = Raise e \/
  (name_matches a = Ok true /\ py_getitem a "authorId" = Raise e) ->
  semantic_scholar_body E [] = (Raise e, [search_request]) /\
  primary E = None /\
  persisted (main E d) = get_fallback_metrics (today E).
Proof.
  intros Hc Hpre Ha.
  assert (Hs : selected_author E = Raise e).
  { unfold selected_author. rewrite Hc. simpl.
    rewrite (scan_authors_skip pre (a :: post) Hpre). simpl.
    destruct Ha as [Ha | [Ha Hid]]; rewrite Ha; [reflexivity | exact Hid]. }
  destruct (primary_of_selection E _ Hs) as [Hb Ho].
  simpl in Ho.
  assert (Hr : primary_requests E = [search_request])
    by (unfold primary_requests; rewrite Hs; reflexivity).
  assert (Hp : primary E = None)
    by (rewrite primary_caught, Ho; reflexivity).
  split; [rewrite Hb, Ho, Hr; reflexivity|].
  split; [exact Hp|].
  apply no_data_gives_fallback. exact Hp.
Qed.

Lemma raising_candidate_fails_fetch_witness :
  semantic_scholar_body keyless_env [] = (Raise KeyError, [search_request]) /\
  primary keyless_env = None /\
  persisted (main keyless_env empty_disk) = get_fallback_metrics "2025-01-15".
Proof.
  apply (raising_candidate_fails_fetch keyless_env empty_disk
           [] [candidate (PyStr "1752417") (PyStr "E.-M. Nikolados")]
           (PyDict [ ("name", PyStr "E. Nikolados") ]) KeyError);
    [reflexivity | constructor | right; split; reflexivity].
Defined.

(** ** The name test *)

Lemma prefix_spec (n h : string) :
  String.prefix n h = true <-> exists post, h = (n ++ post)%string.
Proof.
  revert h. induction n as [|c n IH]; intros h; simpl.
  - split; [intros _; exists h; reflexivity | destruct h; reflexivity].
  - destruct h as [|c' h]; simpl.
    + split; [discriminate | intros [post H]; discriminate H].
    + destruct (Ascii.ascii_dec c c') as [<- | Hne].
      * rewrite IH. split; intros [post H]; exists post; congruence.
      * split; [discriminate | intros [post H]; congruence].
Qed.

Lemma str_contains_spec (n h : string) :
  str_contains n h = true <->
  exists pre post, h = (pre ++ n ++ post)%string.
Proof.
  induction h as [|c h IH].
  - cbn [str_contains]. rewrite orb_false_r, prefix_spec. split.
    + intros [post H]. exists "", post. exact H.
    + intros (pre & post & H). destruct pre; [|discriminate H].
      exists post. exact H.
  - cbn [str_contains]. rewrite orb_true_iff, prefix_spec, IH. split.
    + intros [[post H] | (pre & post & H)].
      * exists "", post. exact H.
      * exists (String c pre), post. simpl. congruence.
    + intros (pre & post & H). destruct pre as [|c' pre].
      * left. exists post. exact H.
      * right. exists pre, post. simpl in H. congruence.
Qed.

(** X4.  A candidate with a string name passes the test of line 35 exactly
    when the name holds the surname as a contiguous, case-sensitive
    substring: the name is some text, then "Nikolados", then some text. *)
Theorem name_matches_substring (author : dict) (s : string) :
  Dict.lookup "name" author = Some (PyStr s) ->
  name_matches (PyDict author) = Ok (str_contains "Nikolados" s) /\
  (name_matches (PyDict author) = Ok true <->
   exists pre post, s = (pre ++ "Nikolados" ++ post)%string).
Proof.
  intros H.
  assert (Hn : name_matches (PyDict author) = Ok (str_contains "Nikolados" s))
    by (unfold name_matches, py_get; rewrite H; reflexivity).
  split; [exact Hn|].
  rewrite Hn, <- str_contains_spec.
  split; [intros [= ->]; reflexivity | intros ->; reflexivity].
Qed.

Lemma name_matches_substring_witness :
  name_matches (candidate (PyStr "7") (PyStr "E. Nikolados Jr")) = Ok true /\
  exists pre post, "E. Nikolados Jr" = (pre ++ "Nikolados" ++ post)%string.
Proof.
  destruct (name_matches_substring
              [ ("authorId", PyStr "7"); ("name", PyStr "E. Nikolados Jr") ]
              "E. Nikolados Jr" eq_refl) as [Hv Hiff].
  split; [exact Hv | exact (proj1 Hiff Hv)].
Defined.

(** ** When the two loops get through *)

Lemma count_i10_countable (entries : list pyval) :
  forall acc,
    forallb countable entries = true ->
    count_i10 entries acc = Ok (acc + i10_index_spec entries).
Proof.
  induction entries as [|p ps IH]; intros acc H.
  - unfold i10_index_spec. simpl. apply f_equal. lia.
  - simpl in H. apply andb_true_iff in H. destruct H as [Hp Hps].
    rewrite i10_index_spec_cons. simpl.
    destruct p as [| | | | |pd]; try discriminate Hp.
    unfold py_get, py_ge, exc_bind, citation_count. simpl in Hp.
    destruct (Dict.lookup "citationCount" pd) as [v|].
    + destruct (as_int v) as [x|]; [|discriminate Hp].
      rewrite (IH _ Hps). destruct (10 <=? x); apply f_equal; lia.
    + simpl. rewrite (IH _ Hps). apply f_equal. lia.
Qed.

Lemma count_i10_uncountable (entries : list pyval) :
  forall acc,
    forallb countable entries = false ->
    exists e, count_i10 entries acc = Raise e.
Proof.
  induction entries as [|p ps IH]; intros acc H; [discriminate H|].
  simpl in H. simpl.
  destruct p as [| | | | |pd]; simpl; eauto.
  unfold py_ge. simpl in H.
  destruct (Dict.lookup "citationCount" pd) as [v|]; simpl.
  - destruct (as_int v) as [x|]; simpl; eauto.
  - apply IH. exact H.
Qed.

Lemma sum_citations_summable (items : list pyval) :
  forall acc,
    forallb summable items = true ->
    sum_citations items acc = Ok (acc + citation_sum_spec items).
Proof.
  induction items as [|p ps IH]; intros acc H.
  - simpl. apply f_equal. lia.
  - simpl in H. apply andb_true_iff in H. destruct H as [Hp Hps].
    simpl sum_citations. simpl citation_sum_spec.
    destruct p as [| | | | |pd]; try discriminate Hp.
    unfold py_get, py_add, exc_bind, referenced_by. simpl in Hp.
    destruct (Dict.lookup "is-referenced-by-count" pd) as [v|].
    + destruct (as_int v) as [x|]; [|discriminate Hp].
      rewrite (IH _ Hps). apply f_equal. lia.
    + simpl. rewrite (IH _ Hps). apply f_equal. lia.
Qed.

Lemma sum_citations_unsummable (items : list pyval) :
  forall acc,
    forallb summable items = false ->
    exists e, sum_citations items acc = Raise e.
Proof.
  induction items as [|p ps IH]; intros acc H; [discriminate H|].
  simpl in H. simpl.
  destruct p as [| | | | |pd]; simpl; eauto.
  unfold py_add. simpl in H.
  destruct (Dict.lookup "is-referenced-by-count" pd) as [v|]; simpl.
  - destruct (as_int v) as [x|]; simpl; eauto.
  - apply IH. exact H.
Qed.

Lemma uncountable_not_countable (p : pyval) :
  uncountable p = negb (countable p).
Proof.
  destruct p as [| | | | |pd]; try reflexivity. simpl.
  destruct (Dict.lookup "citationCount" pd) as [v|]; [|reflexivity].
  destruct v; reflexivity.
Qed.

Lemma unsummable_not_summable (p : pyval) :
  unsummable p = negb (summable p).
Proof.
  destruct p as [| | | | |pd]; try reflexivity. simpl.
  destruct (Dict.lookup "is-referenced-by-count" pd) as [v|]; [|reflexivity].
  destruct v; reflexivity.
Qed.

Lemma existsb_forallb_neg (f g : pyval -> bool) (l : list pyval) :
  (forall x, f x = negb (g x)) ->
  existsb f l = true -> forallb g l = false.
Proof.
  intros Hfg. induction l as [|x l IH]; simpl; [discriminate|].
  rewrite Hfg. destruct (g x); simpl; [exact IH | reflexivity].
Qed.

(** X5.  Building the record from the author-detail body: it succeeds, with
    the i10-index the count of entries with at least 10 citations, when the
    body is an object, its paper list (absent: empty) can be iterated and
    every entry is an object whose citation count is missing or an integer;
    it raises when the body is not an object, and when some entry of the
    paper list is not an object or has a citation count that is null, a
    string, a list or an object. *)
Theorem build_metrics_outcome (data : pyval) (date : string) :
  (forall d entries,
      data = PyDict d ->
      py_iter (match Dict.lookup "papers" d with
               | Some papers => papers
               | None => PyList []
               end) = Ok entries ->
      (forallb countable entries = true ->
       exists m, build_metrics data date = Ok m /\
                 Dict.lookup "i10_index" m =
                   Some (PyInt (i10_index_spec entries))) /\
      (existsb uncountable entries = true ->
       exists e, build_metrics data date = Raise e)) /\
  ((forall d, data <> PyDict d) ->
   build_metrics data date = Raise AttributeError).
Proof.
  split.
  - intros d entries -> Hit. split.
    + intros Hc.
      assert (Hi : compute_i10 (PyDict d) = Ok (i10_index_spec entries)).
      { unfold compute_i10. simpl. rewrite Hit. simpl.
        rewrite (count_i10_countable entries 0 Hc). reflexivity. }
      eexists. split; [apply (build_metrics_dict d date _ Hi) | reflexivity].
    + intros Hu.
      pose proof (existsb_forallb_neg uncountable countable entries
                    uncountable_not_countable Hu) as Hc.
      destruct (count_i10_uncountable entries 0 Hc) as [e He].
      exists e. unfold build_metrics, compute_i10. simpl.
      rewrite Hit. simpl. rewrite He. reflexivity.
  - intros Hn. destruct data as [| | | | |d]; try reflexivity.
    exfalso. exact (Hn d eq_refl).
Qed.

(** X6.  One paper entry that is not an object, or whose citation count is
    null, a string, a list or an object, discards the whole author-detail
    answer: the primary fetcher returns no data and the run persists the
    fallback record. *)
Theorem uncountable_paper_falls_back (E : env) (d : disk)
    (author_id data papers : pyval) (entries : list pyval) :
  selected_author E = Ok author_id ->
  truthy author_id = true ->
  answer_json E (detail_request author_id) = Ok data ->
  py_get data "papers" (PyList []) = Ok papers ->
  py_iter papers = Ok entries ->
  existsb uncountable entries = true ->
  primary E = None /\
  persisted (main E d) = get_fallback_metrics (today E).
Proof.
  intros Hs Ht Ha Hp Hit Hu.
  pose proof (existsb_forallb_neg uncountable countable entries
                uncountable_not_countable Hu) as Hc.
  assert (Hn : primary E = None).
  { rewrite primary_caught. unfold primary_outcome.
    rewrite Hs. simpl. rewrite Ht. simpl. rewrite Ha. simpl.
    unfold build_metrics, compute_i10. rewrite Hp. simpl. rewrite Hit. simpl.
    destruct (count_i10_uncountable entries 0 Hc) as [e ->]. reflexivity. }
  split; [exact Hn | apply no_data_gives_fallback; exact Hn].
Qed.

Lemma uncountable_paper_falls_back_witness :
  primary null_count_env = None /\
  persisted (main null_count_env empty_disk) =
    get_fallback_metrics "2025-01-15".
Proof.
  apply (uncountable_paper_falls_back null_count_env empty_disk
           (PyStr "1752417")
           (PyDict [ ("hIndex", PyInt 6);
                     ("papers",
                      PyList [ PyDict [ ("citationCount", PyInt 12) ];
                               PyDict [ ("citationCount", PyNone) ] ]) ])
           (PyList [ PyDict [ ("citationCount", PyInt 12) ];
                     PyDict [ ("citationCount", PyNone) ] ])
           [ PyDict [ ("citationCount", PyInt 12) ];
             PyDict [ ("citationCount", PyNone) ] ]);
    reflexivity.
Defined.

Lemma i10_index_spec_bounds (entries : list pyval) :
  0 <= i10_index_spec entries <= Z.of_nat (List.length entries).
Proof.
  unfold i10_index_spec.
  pose proof (filter_length_le (fun p => 10 <=? citation_count p) entries).
  lia.
Qed.

(** X7.  In every run the persisted i10-index is a non-negative integer,
    whatever the services sent; when the primary fetcher returned a record it
    is at most the number of entries of the paper list. *)
Theorem i10_index_within_bounds (E : env) (d : disk) :
  exists n,
    Dict.lookup "i10_index" (persisted (main E d)) = Some (PyInt n) /\
    0 <= n /\
    forall m author_id data papers entries,
      primary E = Some m ->
      selected_author E = Ok author_id ->
      answer_json E (detail_request author_id) = Ok data ->
      py_get data "papers" (PyList []) = Ok papers ->
      py_iter papers = Ok entries ->
      n <= Z.of_nat (List.length entries).
Proof.
  destruct (primary E) as [m|] eqn:Hp.
  - destruct (primary_success_inv E _ Hp) as (a & data & Hs & _ & Ha & Hb).
    destruct (build_metrics_shape _ _ _ Hb) as (dd & i10 & Hd & Hi & Hm).
    destruct (compute_i10_inv _ _ Hi) as (papers & entries & H1 & H2 & H3).
    exists i10. split; [|split].
    + rewrite (persisted_keeps_primary E d m "i10_index" Hp)
        by (simpl; tauto).
      rewrite Hm. reflexivity.
    + pose proof (i10_index_spec_bounds entries). lia.
    + intros m' a' data' papers' entries' _ Hs' Ha' H1' H2'.
      assert (a' = a) by congruence. subst a'.
      assert (data' = data) by congruence. subst data'.
      assert (papers' = papers) by congruence. subst papers'.
      assert (entries' = entries) by congruence. subst entries'.
      pose proof (i10_index_spec_bounds entries). lia.
  - exists 3. rewrite (no_data_gives_fallback E d Hp).
    split; [reflexivity|]. split; [lia|].
    intros m a data papers entries H. discriminate H.
Qed.

(** ** The works answer *)

(** X8.  A works answer that is an object without a [message], or whose
    message has no [items], is not an error: the secondary fetcher returns
    the counts 0 and 0, as for an author without works. *)
Theorem works_without_items_count_zero (E : env) (dd : dict) :
  answer_json E (Get CrossrefWorksUrl None) = Ok (PyDict dd) ->
  Dict.lookup "message" dd = None \/
  (exists message, Dict.lookup "message" dd = Some (PyDict message) /\
                   Dict.lookup "items" message = None) ->
  secondary E =
    Some [ ("total_citations_crossref", PyInt 0);
           ("publications_crossref", PyInt 0) ].
Proof.
  intros Ha H. rewrite secondary_caught. unfold secondary_outcome.
  rewrite Ha. simpl. unfold crossref_summary. simpl.
  destruct H as [-> | (message & -> & Hi)]; simpl.
  - reflexivity.
  - rewrite Hi. reflexivity.
Qed.

Lemma works_without_items_count_zero_witness :
  secondary empty_works_env =
    Some [ ("total_citations_crossref", PyInt 0);
           ("publications_crossref", PyInt 0) ] /\
  persisted (main empty_works_env empty_disk) =
    (sample_record ++ [ ("total_citations_crossref", PyInt 0);
                        ("publications_crossref", PyInt 0) ])%list.
Proof.
  split; [|reflexivity].
  apply (works_without_items_count_zero empty_works_env []);
    [reflexivity | left; reflexivity].
Defined.

Lemma py_len_of_iter (v : pyval) (entries : list pyval) :
  py_iter v = Ok entries -> py_len v = Ok (Z.of_nat (List.length entries)).
Proof.
  destruct v; simpl; try discriminate; intros [= <-].
  - rewrite length_map, length_list_ascii. reflexivity.
  - reflexivity.
  - unfold Dict.keys. rewrite !length_map. reflexivity.
Qed.

Lemma py_iter_of_len (v : pyval) (n : Z) :
  py_len v = Ok n -> exists entries, py_iter v = Ok entries.
Proof. destruct v; simpl; try discriminate; eauto. Qed.

(** X9.  Summarising the works answer: when the answer is an object, its
    [message] (absent: empty object) is an object and the [items] (absent:
    empty list) can be iterated, the summary holds the sum of the
    referenced-by counters and the number of items if every item is an
    object whose counter is missing or an integer, and it raises if some
    item is not an object or has a counter that is null, a string, a list
    or an object.  It also raises when the answer is not an object. *)
Theorem crossref_summary_outcome (data : pyval) :
  (forall d message entries,
      data = PyDict d ->
      match Dict.lookup "message" d with
      | Some x => x
      | None => PyDict []
      end = PyDict message ->
      py_iter (match Dict.lookup "items" message with
               | Some x => x
               | None => PyList []
               end) = Ok entries ->
      (forallb summable entries = true ->
       crossref_summary data =
         Ok [ ("total_citations_crossref",
               PyInt (citation_sum_spec entries));
              ("publications_crossref",
               PyInt (Z.of_nat (List.length entries))) ]) /\
      (existsb unsummable entries = true ->
       exists e, crossref_summary data = Raise e)) /\
  ((forall d, data <> PyDict d) ->
   crossref_summary data = Raise AttributeError).
Proof.
  split.
  - intros d md entries -> Hm Hit.
    unfold crossref_summary. simpl. rewrite Hm. simpl.
    rewrite (py_len_of_iter _ _ Hit), Hit. simpl. split.
    + intros Hc. rewrite (sum_citations_summable entries 0 Hc). reflexivity.
    + intros Hu.
      pose proof (existsb_forallb_neg unsummable summable entries
                    unsummable_not_summable Hu) as Hc.
      destruct (sum_citations_unsummable entries 0 Hc) as [e ->].
      exists e. reflexivity.
  - intros Hn. destruct data as [| | | | |d]; try reflexivity.
    exfalso. exact (Hn d eq_refl).
Qed.

(** ** The counts do not depend on the order of the entries *)

Lemma i10_index_spec_perm (xs ys : list pyval) :
  Permutation xs ys -> i10_index_spec xs = i10_index_spec ys.
Proof.
  induction 1 as [| x xs ys _ IH | x y xs | xs ys zs _ IH1 _ IH2].
  - reflexivity.
  - rewrite !i10_index_spec_cons, IH. reflexivity.
  - rewrite !i10_index_spec_cons. lia.
  - congruence.
Qed.

Lemma citation_sum_spec_perm (xs ys : list pyval) :
  Permutation xs ys -> citation_sum_spec xs = citation_sum_spec ys.
Proof.
  induction 1 as [| x xs ys _ IH | x y xs | xs ys zs _ IH1 _ IH2]; simpl.
  - reflexivity.
  - rewrite IH. reflexivity.
  - lia.
  - congruence.
Qed.

Lemma forallb_perm (f : pyval -> bool) (xs ys : list pyval) :
  Permutation xs ys -> forallb f xs = forallb f ys.
Proof.
  induction 1 as [| x xs ys _ IH | x y xs | xs ys zs _ IH1 _ IH2]; simpl.
  - reflexivity.
  - rewrite IH. reflexivity.
  - destruct (f x), (f y); reflexivity.
  - congruence.
Qed.

(** X10.  The i10 loop is insensitive to the order in which the service
    lists the papers: on a reordered list it succeeds in the same cases and
    gives the same count.  When every item is an object whose referenced-by
    counter is missing or an integer, the citation sum of a reordered list
    is the same as well. *)
Theorem counts_ignore_order (xs ys : list pyval) (acc n : Z) :
  Permutation xs ys ->
  (count_i10 xs acc = Ok n <-> count_i10 ys acc = Ok n) /\
  (forallb summable xs = true ->
   sum_citations xs acc = Ok (acc + citation_sum_spec xs) /\
   sum_citations ys acc = Ok (acc + citation_sum_spec xs)).
Proof.
  intros Hp. split.
  - pose proof (forallb_perm countable _ _ Hp) as Hf.
    pose proof (i10_index_spec_perm _ _ Hp) as Hv.
    destruct (forallb countable xs) eqn:Hx.
    + rewrite (count_i10_countable xs acc Hx).
      rewrite (count_i10_countable ys acc (eq_sym Hf)), Hv. reflexivity.
    + destruct (count_i10_uncountable xs acc Hx) as [e1 ->].
      destruct (count_i10_uncountable ys acc (eq_sym Hf)) as [e2 ->].
      split; discriminate.
  - intros Hx.
    pose proof (forallb_perm summable _ _ Hp) as Hf.
    rewrite Hx in Hf.
    rewrite (sum_citations_summable xs acc Hx).
    rewrite (sum_citations_summable ys acc (eq_sym Hf)).
    rewrite (citation_sum_spec_perm _ _ Hp). split; reflexivity.
Qed.

Lemma counts_ignore_order_witness :
  (count_i10 [ PyDict [ ("citationCount", PyInt 12) ];
               PyDict [ ("is-referenced-by-count", PyInt 7) ] ] 0 = Ok 1 <->
   count_i10 [ PyDict [ ("is-referenced-by-count", PyInt 7) ];
               PyDict [ ("citationCount", PyInt 12) ] ] 0 = Ok 1) /\
  count_i10 [ PyDict [ ("is-referenced-by-count", PyInt 7) ];
              PyDict [ ("citationCount", PyInt 12) ] ] 0 = Ok 1 /\
  sum_citations [ PyDict [ ("is-referenced-by-count", PyInt 7) ];
                  PyDict [ ("citationCount", PyInt 12) ] ] 0 = Ok 7.
Proof.
  destruct (counts_ignore_order
              [ PyDict [ ("citationCount", PyInt 12) ];
                PyDict [ ("is-referenced-by-count", PyInt 7) ] ]
              [ PyDict [ ("is-referenced-by-count", PyInt 7) ];
                PyDict [ ("citationCount", PyInt 12) ] ]
              0 1 (perm_swap _ _ _)) as [Hcount Hsum].
  split; [exact Hcount|].
  split; [exact (proj1 Hcount eq_refl)|].
  exact (proj2 (Hsum eq_refl)).
Defined.

(** ** The writers and the disk *)

Lemma main_files (E : env) (d : disk) :
  exists fields,
    js_content (persisted (main E d)) = Ok fields /\
    files (after (main E d)) =
      write_effect E js_file (JsSnippet fields)
        (write_effect E json_file (JsonText 2 (persisted (main E d)))
           (files d)).
Proof.
  destruct (persisted_js_content E d) as [fields Hj].
  exists fields. split; [exact Hj|]. apply (main_writes E d _ Hj).
Qed.

(** X11.  A run leaves every file other than the two output files as it
    was. *)
Theorem other_files_untouched (E : env) (d : disk) (name : string) :
  name <> json_file ->
  name <> js_file ->
  files (after (main E d)) name = files d name.
Proof.
  intros H1 H2. destruct (main_files E d) as (fields & _ & ->).
  apply String.eqb_neq in H1. apply String.eqb_neq in H2.
  unfold write_effect, put.
  destruct (io E js_file), (io E json_file); rewrite ?H1, ?H2; reflexivity.
Qed.

Lemma other_files_untouched_witness :
  files (after (main sample_env used_disk)) "index.html" =
  files used_disk "index.html".
Proof.
  apply (other_files_untouched sample_env used_disk "index.html");
    discriminate.
Defined.

(** X12.  After a run each output file is in the state its own write left
    it in, independently of the other: unchanged when it could not be
    opened, truncated when writing failed after the open, and holding the
    rendering of the run's record when the write succeeded.  A data file
    that was written stays written when the snippet write fails. *)
Theorem output_files_after_run (E : env) (d : disk) :
  exists fields,
    js_content (persisted (main E d)) = Ok fields /\
    files (after (main E d)) json_file =
      match io E json_file with
      | OpenFails => files d json_file
      | WriteFails => Some Truncated
      | Written => Some (Complete (JsonText 2 (persisted (main E d))))
      end /\
    files (after (main E d)) js_file =
      match io E js_file with
      | OpenFails => files d js_file
      | WriteFails => Some Truncated
      | Written => Some (Complete (JsSnippet fields))
      end.
Proof.
  destruct (main_files E d) as (fields & Hj & ->).
  exists fields. split; [exact Hj|].
  unfold write_effect, put.
  split; destruct (io E js_file), (io E json_file); reflexivity.
Qed.

Lemma js_content_ok_iff (metrics : dict) :
  (exists fields, js_content metrics = Ok fields) <->
  bound "last_updated" metrics /\ bound "scholar_id" metrics.
Proof.
  unfold js_content, bound, py_getitem, py_get, exc_bind.
  destruct (Dict.lookup "last_updated" metrics) as [lu|];
    destruct (Dict.lookup "scholar_id" metrics) as [sid|]; simpl.
  - split; eauto.
  - split; [intros [f H]; discriminate H | intros [_ [v H]]; discriminate H].
  - split; [intros [f H]; discriminate H | intros [[v H] _]; discriminate H].
  - split; [intros [f H]; discriminate H | intros [[v H] _]; discriminate H].
Qed.

(** X13.  The snippet writer needs the [last_updated] and [scholar_id]
    keys of the record: without one of them it reports failure before the
    file is opened and leaves the disk as it was, so a reported success
    implies both keys and a completed write.  The data-file writer opens
    its file for every record. *)
Theorem snippet_writer_needs_keys (E : env) (metrics : dict)
    (filename : string) (d : disk) :
  (~ (bound "last_updated" metrics /\ bound "scholar_id" metrics) ->
   create_javascript_file E metrics filename d = (false, d)) /\
  (fst (create_javascript_file E metrics filename d) = true ->
   bound "last_updated" metrics /\ bound "scholar_id" metrics /\
   io E filename = Written) /\
  attempts (snd (save_metrics_to_json E metrics filename d)) =
    (attempts d ++ [(filename, metrics)])%list.
Proof.
  pose proof (js_content_ok_iff metrics) as Hiff.
  unfold save_metrics_to_json, create_javascript_file, open_and_write.
  split; [|split].
  - intros Hn. destruct (js_content metrics) as [fields|e]; [|reflexivity].
    exfalso. apply Hn. apply Hiff. eauto.
  - destruct (js_content metrics) as [fields|e]; [|discriminate].
    assert (Hb : bound "last_updated" metrics /\ bound "scholar_id" metrics)
      by (apply Hiff; eauto).
    destruct (io E filename); simpl; intros H; try discriminate H.
    tauto.
  - destruct (io E filename); reflexivity.
Qed.

(** X14.  In every run the snippet carries the values of the data file:
    each of its fields is the record's value under the corresponding key,
    the header repeats the date and the source, and none of the snippet's
    defaults ("Unknown", 0) is ever used. *)
Theorem snippet_agrees_with_record (E : env) (d : disk) :
  let r := persisted (main E d) in
  exists fields,
    js_content r = Ok fields /\
    Dict.lookup "h_index" r = Some (js_hIndex fields) /\
    Dict.lookup "i10_index" r = Some (js_i10Index fields) /\
    Dict.lookup "total_citations" r = Some (js_totalCitations fields) /\
    Dict.lookup "publications_count" r = Some (js_publicationsCount fields) /\
    Dict.lookup "last_updated" r = Some (js_lastUpdated fields) /\
    Dict.lookup "scholar_id" r = Some (js_scholarId fields) /\
    Dict.lookup "source" r = Some (js_source fields) /\
    Dict.lookup "author_name" r = Some (js_authorName fields) /\
    js_header_updated fields = js_lastUpdated fields /\
    js_header_source fields = js_source fields.
Proof.
  intros r. subst r.
  destruct (persisted_shape E d) as (h & i & c & p & src & n & extra & -> & _).
  eexists. split; [reflexivity|].
  repeat (split; [reflexivity|]). reflexivity.
Qed.

(** X15.  The snippet depends on the eight record fields only: two records
    that agree on them give the same snippet, so the supplementary fields of
    a run reach the data file but never the snippet. *)
Theorem snippet_depends_on_record_fields (m1 m2 : dict) :
  (forall k, In k record_fields -> Dict.lookup k m1 = Dict.lookup k m2) ->
  js_content m1 = js_content m2.
Proof.
  intros H. unfold js_content, py_getitem, py_get, exc_bind.
  rewrite !(H "last_updated"), !(H "scholar_id"), !(H "source"),
    (H "h_index"), (H "i10_index"), (H "total_citations"),
    (H "publications_count"), (H "author_name")
    by (simpl; tauto).
  reflexivity.
Qed.

Lemma snippet_depends_on_record_fields_witness :
  js_content (persisted (main sample_env empty_disk)) =
  js_content sample_record.
Proof.
  apply (snippet_depends_on_record_fields
           (persisted (main sample_env empty_disk)) sample_record).
  intros k Hk. simpl in Hk.
  repeat (destruct Hk as [<- | Hk]; [reflexivity|]). destruct Hk.
Defined.

(** ** Provenance of the persisted record *)

(** X16.  The source label tells which path produced the record: it is
    "Semantic Scholar" exactly when the primary fetcher returned a record
    and "Manual (fallback)" exactly when it did not. *)
Theorem source_label_tells_path (E : env) (d : disk) :
  (Dict.lookup "source" (persisted (main E d)) =
     Some (PyStr "Semantic Scholar") <-> primary E <> None) /\
  (Dict.lookup "source" (persisted (main E d)) =
     Some (PyStr "Manual (fallback)") <-> primary E = None).
Proof.
  destruct (primary E) as [m|] eqn:Hp.
  - rewrite (persisted_keeps_primary E d m "source" Hp) by (simpl; tauto).
    destruct (primary_success_inv E _ Hp) as (a & data & _ & _ & _ & Hb).
    destruct (build_metrics_shape _ _ _ Hb) as (dd & i10 & _ & _ & ->).
    simpl. split; split; try discriminate; congruence.
  - rewrite (no_data_gives_fallback E d Hp). simpl.
    split; split; try discriminate; congruence.
Qed.

(** X17.  Whatever the services answer, the persisted scholar id is the
    configured one and the last-updated date is the run date: neither is
    ever taken from a response. *)
Theorem configured_fields_persist (E : env) (d : disk) :
  Dict.lookup "scholar_id" (persisted (main E d)) =
    Some (PyStr GOOGLE_SCHOLAR_ID) /\
  Dict.lookup "last_updated" (persisted (main E d)) = Some (PyStr (today E)).
Proof.
  destruct (persisted_shape E d) as (h & i & c & p & src & n & extra & -> & _).
  split; reflexivity.
Qed.

(** X18.  The keys of the persisted record are the eight record fields, in
    the order of the source, followed by the two supplementary fields
    exactly when both fetchers returned data; no other key of a response is
    ever persisted. *)
Theorem persisted_keys (E : env) (d : disk) :
  (primary E <> None /\ secondary E <> None ->
   Dict.keys (persisted (main E d)) =
     (record_fields ++ supplementary_fields)%list) /\
  (primary E = None \/ secondary E = None ->
   Dict.keys (persisted (main E d)) = record_fields) /\
  (forall k, In k supplementary_fields ->
             (bound k (persisted (main E d)) <->
              primary E <> None /\ secondary E <> None)).
Proof.
  destruct (persisted_cases E d)
    as [[Hp ->] | [(m & Hp & Hs & ->) | (m & s & Hp & Hs & ->)]].
  - split; [intros [H _]; contradiction|].
    split; [reflexivity|].
    intros k [<- | [<- | []]]; unfold bound; simpl;
      (split; [intros [v H]; discriminate H | intros [H _]; contradiction]).
  - destruct (primary_success_inv E _ Hp) as (a & data & _ & _ & _ & Hb).
    destruct (build_metrics_shape _ _ _ Hb) as (dd & i10 & _ & _ & ->).
    split; [intros [_ H]; contradiction|].
    split; [reflexivity|].
    intros k [<- | [<- | []]]; unfold bound; simpl;
      (split; [intros [v H]; discriminate H | intros [_ H]; contradiction]).
  - destruct (primary_success_inv E _ Hp) as (a & data & _ & _ & _ & Hb).
    destruct (build_metrics_shape _ _ _ Hb) as (dd & i10 & _ & _ & Hm).
    destruct (secondary_success_inv E _ Hs) as (cdata & _ & Hc).
    destruct (crossref_summary_shape _ _ Hc) as (t & c & Hsum).
    split; [intros _; rewrite Hm, Hsum; reflexivity|].
    split; [intros [H | H]; congruence|].
    intros k Hk. split.
    + intros _. rewrite Hp, Hs. split; discriminate.
    + intros _. rewrite Hm, Hsum. unfold bound.
      destruct Hk as [<- | [<- | []]]; eexists; reflexivity.
Qed.

(** ** The merge *)

Lemma lookup_update (k : string) (other : dict) :
  NoDup (Dict.keys other) ->
  forall d,
    Dict.lookup k (Dict.update d other) =
      match Dict.lookup k other with
      | Some v => Some v
      | None => Dict.lookup k d
      end.
Proof.
  unfold Dict.update.
  induction other as [|[k1 v1] other IH]; intros Hnd d; simpl.
  - reflexivity.
  - inversion Hnd as [|? ? Hnotin Hnd']; subst.
    rewrite (IH Hnd'), lookup_set.
    destruct (String.eqb k k1) eqn:Hk.
    + apply String.eqb_eq in Hk. subst k1.
      assert (Hnone : Dict.lookup k other = None).
      { clear -Hnotin. induction other as [|[k2 v2] other IH]; simpl.
        - reflexivity.
        - destruct (String.eqb k k2) eqn:H2.
          + apply String.eqb_eq in H2. subst k2.
            exfalso. apply Hnotin. simpl. auto.
          + apply IH. intros H. apply Hnotin. simpl. auto. }
      rewrite Hnone. reflexivity.
    + reflexivity.
Qed.

(** X19.  When both fetchers returned non-empty records the merge is a
    plain last-write-wins update: a key of the secondary record takes the
    secondary value, every other key keeps the primary value.  When either
    side is missing or empty the primary result is left as it is. *)
Theorem merge_last_write_wins (m c : dict) (k : string) :
  NoDup (Dict.keys c) ->
  m <> [] ->
  c <> [] ->
  exists merged,
    merge (Some m) (Some c) = Some merged /\
    Dict.lookup k merged =
      match Dict.lookup k c with
      | Some v => Some v
      | None => Dict.lookup k m
      end /\
    merge (Some m) None = Some m /\
    merge (Some m) (Some []) = Some m /\
    merge None (Some c) = None.
Proof.
  intros Hnd Hm Hc. exists (Dict.update m c).
  split; [|split; [apply lookup_update; exact Hnd | repeat split]].
  destruct m; [contradiction|]. destruct c; [contradiction|]. reflexivity.
Qed.

Lemma merge_last_write_wins_witness :
  exists merged,
    merge (Some sample_record) (Some [ ("h_index", PyInt 99) ]) = Some merged /\
    Dict.lookup "h_index" merged =
      match Dict.lookup "h_index" [ ("h_index", PyInt 99) ] with
      | Some v => Some v
      | None => Dict.lookup "h_index" sample_record
      end /\
    merge (Some sample_record) None = Some sample_record /\
    merge (Some sample_record) (Some []) = Some sample_record /\
    merge None (Some [ ("h_index", PyInt 99) ]) = None.
Proof.
  apply (merge_last_write_wins sample_record [ ("h_index", PyInt 99) ]
           "h_index").
  - repeat constructor. simpl. tauto.
  - discriminate.
  - discriminate.
Defined.

(** ** The works answers cannot reach the primary fields *)

(** X20.  Two runs on the same date whose author-search and author-detail
    answers agree make the same decision between primary record and
    fallback and persist the same values under the eight record fields,
    whatever the bibliographic service answered in either run. *)
Theorem works_answers_do_not_interfere (E1 E2 : env) (d1 d2 : disk) :
  (forall rq, req_url rq <> CrossrefWorksUrl -> http E1 rq = http E2 rq) ->
  today E1 = today E2 ->
  primary E1 = primary E2 /\
  forall k, In k record_fields ->
            Dict.lookup k (persisted (main E1 d1)) =
            Dict.lookup k (persisted (main E2 d2)).
Proof.
  intros Hsame Hdate.
  assert (Ha : forall rq, req_url rq <> CrossrefWorksUrl ->
                          answer_json E1 rq = answer_json E2 rq).
  { intros rq Hrq. unfold answer_json. rewrite (Hsame rq Hrq). reflexivity. }
  assert (Hs : selected_author E1 = selected_author E2).
  { unfold selected_author, candidates.
    rewrite (Ha search_request) by discriminate. reflexivity. }
  assert (Hp : primary E1 = primary E2).
  { rewrite !primary_caught. unfold primary_outcome. rewrite Hs, Hdate.
    destruct (selected_author E2) as [author_id|]; simpl; [|reflexivity].
    destruct (truthy author_id); simpl; [|reflexivity].
    rewrite (Ha (detail_request author_id)) by discriminate. reflexivity. }
  split; [exact Hp|]. intros k Hk.
  destruct (primary E1) as [m|] eqn:H1.
  - rewrite (persisted_keeps_primary E1 d1 m k H1 Hk).
    rewrite (persisted_keeps_primary E2 d2 m k (eq_sym Hp) Hk). reflexivity.
  - rewrite (no_data_gives_fallback E1 d1 H1).
    rewrite (no_data_gives_fallback E2 d2 (eq_sym Hp)), Hdate. reflexivity.
Qed.

Lemma works_answers_do_not_interfere_witness :
  primary busy_works_env = primary empty_works_env /\
  forall k, In k record_fields ->
            Dict.lookup k (persisted (main busy_works_env empty_disk)) =
            Dict.lookup k (persisted (main empty_works_env used_disk)).
Proof.
  apply (works_answers_do_not_interfere busy_works_env empty_works_env
           empty_disk used_disk); [|reflexivity].
  intros [u ps] Hu. destruct u as [| author_id |].
  - reflexivity.
  - reflexivity.
  - exfalso. apply Hu. reflexivity.
Defined.

(** ** A search answer without candidates *)

(** X21.  A search answer that is an object without a [data] key is an
    ordinary miss: the candidate list defaults to empty, the [try] body
    returns [None] through its own [return] after the single search request,
    and the run persists the fallback record.  A [data] key holding null is
    different: iterating it raises, and the fetcher leaves through the
    exception handler -- with the same fallback record. *)
Theorem search_without_data_is_a_miss (E : env) (d : disk) (found : dict) :
  answer_json E search_request = Ok (PyDict found) ->
  (Dict.lookup "data" found = None ->
   semantic_scholar_body E [] = (Ok None, [search_request])) /\
  (Dict.lookup "data" found = Some PyNone ->
   semantic_scholar_body E [] = (Raise TypeError, [search_request])) /\
  (Dict.lookup "data" found = None \/ Dict.lookup "data" found = Some PyNone ->
   persisted (main E d) = get_fallback_metrics (today E)).
Proof.
  intros Ha.
  assert (Hmiss : Dict.lookup "data" found = None ->
                  selected_author E = Ok PyNone).
  { intros H. unfold selected_author, candidates. rewrite Ha. simpl.
    rewrite H. reflexivity. }
  assert (Hnull : Dict.lookup "data" found = Some PyNone ->
                  selected_author E = Raise TypeError).
  { intros H. unfold selected_author, candidates. rewrite Ha. simpl.
    rewrite H. reflexivity. }
  split; [|split].
  - intros H. destruct (primary_of_selection E _ (Hmiss H)) as [-> ->].
    unfold primary_requests. rewrite (Hmiss H). reflexivity.
  - intros H. destruct (primary_of_selection E _ (Hnull H)) as [-> ->].
    unfold primary_requests. rewrite (Hnull H). reflexivity.
  - intros H. apply no_data_gives_fallback.
    rewrite primary_caught. unfold primary_outcome.
    destruct H as [H | H]; [rewrite (Hmiss H) | rewrite (Hnull H)];
      reflexivity.
Qed.

Lemma search_without_data_is_a_miss_witness :
  semantic_scholar_body no_data_env [] = (Ok None, [search_request]) /\
  persisted (main no_data_env empty_disk) = get_fallback_metrics "2025-01-15".
Proof.
  destruct (search_without_data_is_a_miss no_data_env empty_disk
              [ ("total", PyInt 0) ] eq_refl) as (Hmiss & _ & Hfall).
  split; [exact (Hmiss eq_refl) | exact (Hfall (or_introl eq_refl))].
Defined.

(** ** The record handed to the writers *)

(** C8, as amended.  Both write attempts of a run are made with the run's
    final record, and that record always binds the five primary fields: the
    i10-index is a non-negative integer and the last-updated date is the run
    date; the h-index, the citation total and the publication count are the
    fallback provider's integers or, after a successful primary fetch, the
    values the author-detail body holds under [hIndex], [citationCount] and
    [publicationCount] (0 for an absent key), taken over as they are.  A
    primary field is therefore null only when the service sent null for the
    corresponding aggregate. *)
Theorem record_complete_before_writes (E : env) (d : disk) :
  let r := persisted (main E d) in
  attempts (after (main E d)) =
    (attempts d ++ [ (json_file, r); (js_file, r) ])%list /\
  Forall (fun k => bound k r) primary_fields /\
  (exists n, Dict.lookup "i10_index" r = Some (PyInt n) /\ 0 <= n) /\
  Dict.lookup "last_updated" r = Some (PyStr (today E)) /\
  ((primary E = None /\ r = get_fallback_metrics (today E)) \/
   (exists m author_id dd,
       primary E = Some m /\
       selected_author E = Ok author_id /\
       answer_json E (detail_request author_id) = Ok (PyDict dd) /\
       (forall k key,
           In (k, key) aggregate_keys ->
           Dict.lookup k r =
             Some (match Dict.lookup key dd with
                   | Some v => v
                   | None => PyInt 0
                   end)) /\
       (r = m \/ exists s, secondary E = Some s /\ r = Dict.update m s))) /\
  (forall k,
      In k primary_fields ->
      Dict.lookup k r = Some PyNone ->
      exists author_id dd key,
        selected_author E = Ok author_id /\
        answer_json E (detail_request author_id) = Ok (PyDict dd) /\
        In (k, key) aggregate_keys /\
        Dict.lookup key dd = Some PyNone).
Proof.
  intros r. subst r.
  split; [apply main_attempts|].
  destruct (primary E) as [m|] eqn:Hp.
  - destruct (primary_success_inv E _ Hp) as (a & data & Hs & _ & Ha & Hb).
    destruct (build_metrics_shape _ _ _ Hb) as (dd & i10 & Hd & Hi & Hm).
    subst data.
    destruct (compute_i10_inv _ _ Hi) as (papers & entries & _ & _ & Hn).
    pose proof (i10_index_spec_bounds entries) as Hbound.
    assert (Hk : forall k, In k record_fields ->
                           Dict.lookup k (persisted (main E d)) =
                           Dict.lookup k m)
      by (intros k; apply persisted_keeps_primary; exact Hp).
    assert (Hagg : forall k key,
               In (k, key) aggregate_keys ->
               Dict.lookup k (persisted (main E d)) =
                 Some (match Dict.lookup key dd with
                       | Some v => v
                       | None => PyInt 0
                       end)).
    { intros k key Hin. simpl in Hin.
      destruct Hin as [[= <- <-] | [[= <- <-] | [[= <- <-] | []]]];
        rewrite Hk by (simpl; tauto); rewrite Hm; reflexivity. }
    split; [|split; [|split; [|split]]].
    + unfold primary_fields, bound.
      repeat constructor; rewrite Hk by (simpl; tauto); rewrite Hm;
        eexists; reflexivity.
    + exists i10. rewrite Hk by (simpl; tauto). rewrite Hm.
      split; [reflexivity | lia].
    + rewrite Hk by (simpl; tauto). rewrite Hm. reflexivity.
    + right. exists m, a, dd.
      split; [reflexivity|]. split; [exact Hs|]. split; [exact Ha|].
      split; [exact Hagg|].
      destruct (persisted_cases E d)
        as [[Hnone _] | [(m' & Hp' & _ & Hr) | (m' & s & Hp' & Hs' & Hr)]].
      * congruence.
      * left. congruence.
      * right. exists s. split; [exact Hs'|].
        assert (m' = m) by congruence. subst m'. rewrite Hr, Hm.
        destruct (secondary_success_inv E _ Hs') as (cdata & _ & Hc).
        destruct (crossref_summary_shape _ _ Hc) as (t & c & ->).
        reflexivity.
    + intros k Hin Hnull. simpl in Hin.
      destruct Hin as [<- | [<- | [<- | [<- | [<- | []]]]]].
      * exists a, dd, "hIndex".
        rewrite (Hagg "h_index" "hIndex") in Hnull by (simpl; tauto).
        repeat (split; [assumption || (simpl; tauto)|]).
        destruct (Dict.lookup "hIndex" dd); congruence.
      * rewrite Hk in Hnull by (simpl; tauto). rewrite Hm in Hnull.
        discriminate Hnull.
      * exists a, dd, "citationCount".
        rewrite (Hagg "total_citations" "citationCount") in Hnull
          by (simpl; tauto).
        repeat (split; [assumption || (simpl; tauto)|]).
        destruct (Dict.lookup "citationCount" dd); congruence.
      * exists a, dd, "publicationCount".
        rewrite (Hagg "publications_count" "publicationCount") in Hnull
          by (simpl; tauto).
        repeat (split; [assumption || (simpl; tauto)|]).
        destruct (Dict.lookup "publicationCount" dd); congruence.
      * rewrite Hk in Hnull by (simpl; tauto). rewrite Hm in Hnull.
        discriminate Hnull.
  - rewrite (no_data_gives_fallback E d Hp).
    split; [|split; [|split; [|split]]].
    + unfold primary_fields, bound. repeat constructor; eexists; reflexivity.
    + exists 3. split; [reflexivity | lia].
    + reflexivity.
    + left. split; reflexivity.
    + intros k Hin Hnull. simpl in Hin.
      destruct Hin as [<- | [<- | [<- | [<- | [<- | []]]]]];
        discriminate Hnull.
Qed.

(** C8, as stated, fails: in [null_aggregate_env] the author-detail body
    carries a null h-index, and both writes are attempted with a record
    whose h-index is null. *)
Lemma null_aggregate_reaches_writers :
  answer_json null_aggregate_env (detail_request (PyStr "1752417")) =
    Ok null_aggregate /\
  attempts (after (main null_aggregate_env empty_disk)) =
    [ (json_file, persisted (main null_aggregate_env empty_disk));
      (js_file, persisted (main null_aggregate_env empty_disk)) ] /\
  Dict.lookup "h_index" (persisted (main null_aggregate_env empty_disk)) =
    Some PyNone /\
  Dict.lookup "source" (persisted (main null_aggregate_env empty_disk)) =
    Some (PyStr "Semantic Scholar").
Proof. repeat split; reflexivity. Qed.
